(** * The Rigetti back-end of ProjectQ: translation to Quil and result
    reconstruction

  A shallow embedding of [projectq/backends/_rigetti/_rigetti.py]
  (class [RigettiBackend]) and the properties its description states.

  Conventions of the embedding.
  - Python exceptions are values of [Exn]; a method is a function on the
    [World] (the back-end object together with what it writes to the
    outside) returning an [Outcome] and the world it leaves behind, so that
    what an aborted call has already mutated stays visible.
  - A Python [dict] is the list of its items in insertion order, keys
    unique ([PyDict.set] keeps the position of a present key).
  - A qubit id and a physical position are natural numbers.
  - A probability ([counts[state] * 1. / num_runs], a binary64 float in
    the source) is the exact rational it denotes, in lowest terms; rounding
    is not modelled.  For a shot count that is a power of two (1024 by
    default) the float operations of the back-end are exact. *)

From Stdlib Require Import List String Ascii Bool Arith ZArith QArith Lia.
From Stdlib Require Import Qabs Lqa DecimalFacts DecimalNat DecimalString.
Import ListNotations.

Local Close Scope Q_scope.
Local Open Scope string_scope.
Local Open Scope list_scope.
Local Open Scope nat_scope.

(* ------------------------------------------------------------------ *)
(** ** Strings *)

Module PyStr.

(** ["\n"] *)
Definition nl : ascii := "010"%char.

(** [str(n)] for a non-negative [int]. *)
Definition str_nat (n : nat) : string :=
  NilEmpty.string_of_uint (Nat.to_uint n).

(** [c.upper()] on ASCII. *)
Definition upper_ascii (c : ascii) : ascii :=
  let n := nat_of_ascii c in
  if (97 <=? n) && (n <=? 122) then ascii_of_nat (n - 32) else c.

(** [s.upper()] *)
Fixpoint upper (s : string) : string :=
  match s with
  | EmptyString => EmptyString
  | String c r => String (upper_ascii c) (upper r)
  end.

(** [s.replace('PH(', 'PHASE(')]: every occurrence, left to right, without
    overlap. *)
Fixpoint replace_PH (s : string) : string :=
  match s with
  | String "P" (String "H" (String "(" r)) => ("PHASE(" ++ replace_PH r)%string
  | String c r => String c (replace_PH r)
  | EmptyString => EmptyString
  end.

(** [c.isspace()] on ASCII: tab, line feed, vertical tab, form feed,
    carriage return, the four separators 28..31 and the blank. *)
Definition isspace (c : ascii) : bool :=
  let n := nat_of_ascii c in
  ((9 <=? n) && (n <=? 13)) || ((28 <=? n) && (n <=? 32)).

(** [s.lstrip()] *)
Fixpoint lstrip (s : string) : string :=
  match s with
  | String c r => if isspace c then lstrip r else s
  | EmptyString => EmptyString
  end.

(** [s.rstrip()] *)
Fixpoint rstrip (s : string) : string :=
  match s with
  | String c r =>
      match rstrip r with
      | EmptyString => if isspace c then EmptyString else String c EmptyString
      | r' => String c r'
      end
  | EmptyString => EmptyString
  end.

(** [s.strip()] *)
Definition strip (s : string) : string := rstrip (lstrip s).

(** the characters of [s] in reverse order, joined ([reversed] then [join]) *)
Fixpoint rev (s : string) : string :=
  match s with
  | EmptyString => EmptyString
  | String c r => (rev r ++ String c EmptyString)%string
  end.

(** [join] of a list of characters on the empty separator *)
Definition join (l : list ascii) : string := string_of_list_ascii l.

(** the concatenation of a list of strings, first to last *)
Fixpoint concat (l : list string) : string :=
  match l with
  | [] => EmptyString
  | x :: r => (x ++ concat r)%string
  end.

(** [int(c)] for a one-character string: [None] stands for [ValueError]. *)
Definition int_of_char (c : ascii) : option nat :=
  let n := nat_of_ascii c in
  if (48 <=? n) && (n <=? 57) then Some (n - 48) else None.

(** the lines of a text, split at each line feed ([s.split("\n")]) *)
Fixpoint lines (s : string) : list string :=
  match s with
  | EmptyString => [EmptyString]
  | String c r =>
      if Ascii.eqb c nl then EmptyString :: lines r
      else match lines r with
           | l :: ls => String c l :: ls
           | [] => [String c EmptyString]
           end
  end.

End PyStr.

(* ------------------------------------------------------------------ *)
(** ** Insertion-ordered dictionaries *)

Module PyDict.

Section Dict.
Context {V : Type}.

Definition dict : Type := list (string * V).

(** [d.get(k)] *)
Fixpoint get (k : string) (d : dict) : option V :=
    match d with
    | [] => None
    | (k', v) :: r => if String.eqb k k' then Some v else get k r
    end.

(** [d[k] = v]: a present key keeps its place, a new key goes last. *)
Fixpoint set (k : string) (v : V) (d : dict) : dict :=
    match d with
    | [] => [(k, v)]
    | (k', v') :: r =>
        if String.eqb k k' then (k', v) :: r else (k', v') :: set k v r
    end.

Definition keys (d : dict) : list string := map fst d.
Definition values (d : dict) : list V := map snd d.

(** [d1 == d2] up to the equality of values [R]: same keys, related
      values, whatever the order. *)
Definition equal (R : V -> V -> Prop) (d1 d2 : dict) : Prop :=
    forall k,
      match get k d1, get k d2 with
      | Some v1, Some v2 => R v1 v2
      | None, None => True
      | _, _ => False
      end.
End Dict.

Arguments dict V : clear implicits.

End PyDict.


(* ------------------------------------------------------------------ *)
(** ** Gates and commands *)

Module Ops.

(** The angle of a rotation gate: a float of which the back-end takes
    nothing but the printed form [str(angle)], which stands for it here. *)
Definition Angle : Type := string.

(** Modelled from the spec: the gate objects of [projectq.ops], imported by
    the back-end but not among the sources.  One constructor per gate the
    back-end names; [OtherGate] is any further gate, known by its printed
    name ([Entangle], [Swap], ...). *)
Inductive Gate : Type :=
| X | Y | Z | H | T | S | Tdag | Sdag
| Rx (angle : Angle) | Ry (angle : Angle) | Rz (angle : Angle)
| Ph (angle : Angle)
| Measure | Allocate | Deallocate | Barrier | FlushGate
| OtherGate (name : string).

(** Modelled from the spec: [NOT] and [X] name the same gate (a NOT without
    controls is emitted in the plain single-qubit form). *)
Definition NOT : Gate := X.

Definition Gate_eq_dec (g1 g2 : Gate) : {g1 = g2} + {g1 <> g2}.
Proof. decide equality; apply string_dec. Defined.

(** [g1 == g2] *)
Definition eqb (g1 g2 : Gate) : bool :=
  if Gate_eq_dec g1 g2 then true else false.

(** [g in gs] for a tuple of gates *)
Definition mem (g : Gate) (gs : list Gate) : bool := existsb (eqb g) gs.

(** [isinstance(g, (Rx, Ry, Rz, Ph))] *)
Definition is_rotation (g : Gate) : bool :=
  match g with
  | Rx _ | Ry _ | Rz _ | Ph _ => true
  | _ => false
  end.

(** Modelled from the spec: [str(g)], the printed name of a gate as
    [projectq.ops] defines it. *)
Definition str (g : Gate) : string :=
  match g with
  | X => "X" | Y => "Y" | Z => "Z" | H => "H" | T => "T" | S => "S"
  | Tdag => "T^\dagger" | Sdag => "S^\dagger"
  | Rx a => "Rx(" ++ a ++ ")" | Ry a => "Ry(" ++ a ++ ")"
  | Rz a => "Rz(" ++ a ++ ")" | Ph a => "Ph(" ++ a ++ ")"
  | Measure => "Measure" | Allocate => "Allocate"
  | Deallocate => "Deallocate" | Barrier => "Barrier"
  | FlushGate => EmptyString
  | OtherGate name => name
  end%string.

(** Modelled from the spec: [str(Ph)], the printed form of the class [Ph]
    itself, which is the third key of the rename table. *)
Definition str_class_Ph : string := "<class 'projectq.ops._gates.Ph'>".

End Ops.

(** A tag attached to a command; [LogicalQubitIDTag] carries the identity
    of the qubit before the mapper renamed it. *)
Inductive Tag : Type :=
| LogicalQubitIDTag (logical_qubit_id : nat)
| OtherTag (name : string).

(** A command: its gate, the tuple of target registers (each a list of qubit
    ids), the control qubits and the tags. *)
Record Command : Type := mkCommand {
  gate : Ops.Gate;
  qubits : list (list nat);
  control_qubits : list nat;
  tags : list Tag
}.

(** [projectq.meta.get_control_count] *)
Definition get_control_count (cmd : Command) : nat :=
  List.length (control_qubits cmd).

(* ------------------------------------------------------------------ *)
(** ** The availability predicate *)

Definition is_available (cmd : Command) : bool :=
  let g := gate cmd in
  if Ops.eqb g Ops.Barrier then false
  else if Ops.eqb g Ops.NOT && (get_control_count cmd <=? 2) then true
  else if Ops.mem g [Ops.T; Ops.Tdag; Ops.S; Ops.Sdag; Ops.H; Ops.X; Ops.Y;
                     Ops.Z] then true
  else if Ops.is_rotation g then true
  else if Ops.mem g [Ops.Measure; Ops.Allocate; Ops.Deallocate] then true
  else false.

(* ------------------------------------------------------------------ *)
(** ** Exceptions, the world and its monad *)

Inductive Exn : Type :=
| AssertionError
| AttributeError
| IndexError
| KeyError (key : nat)
| ValueError
| ZeroDivisionError
| TypeError
| RuntimeError (msg : string)
| Exception (msg : string).

Inductive Outcome (A : Type) : Type :=
| Returns (a : A)
| Raises (e : Exn).

Arguments Returns {A} a.
Arguments Raises {A} e.

(** The payload handed to [send]. *)
Record Info : Type := mkInfo {
  info_quil : string;        (* info['quils'] = [{'quil': ...}] *)
  info_shots : Z;            (* info['shots'] *)
  info_maxCredits : Z;       (* info['maxCredits'] *)
  info_backend : string      (* info['backend'] = {'name': ...} *)
}.

(** A call of the HTTP client. *)
Inductive Request : Type :=
| Send (info : Info)
| Retrieve (device : string) (jobid : string).

(** What the client hands back: one list of values per shot. *)
Definition Res : Type := list (list nat).

(** The fields of a [RigettiBackend] the translation reads or writes
    ([_verbose], [_user_id] and [_api_key] only reach printing and the
    client's credentials). *)
Record Backend : Type := mkBackend {
  device : string;
  _num_runs : Z;
  _retrieve_execution : option string;
  _clear : bool;
  _measured_ids : list nat;
  _probabilities : PyDict.dict Q;
  quil : string;
  _allocated_qubits : list nat
}.

(** The back-end object and the traces it leaves outside: the measurement
    results handed to the main engine, the calls made to the client and the
    number of random draws taken so far. *)
Record World : Type := mkWorld {
  self : Backend;
  measurement_results : list (nat * nat);
  requests : list Request;
  draws : nat
}.

(** What the back-end is given and does not own: the mapper's current
    mapping (no mapper at all when [None]), the answers of the client and
    the values [random.random()] returns, draw after draw. *)
Record Env : Type := mkEnv {
  mapper : option (nat -> option nat);
  send : Info -> Outcome Res;
  retrieve : string -> string -> Outcome Res;
  random : nat -> Q
}.

Definition M (A : Type) : Type := World -> Outcome A * World.

Definition ret {A} (a : A) : M A := fun w => (Returns a, w).

Definition raise {A} (e : Exn) : M A := fun w => (Raises e, w).

Definition bind {A B} (m : M A) (k : A -> M B) : M B :=
  fun w =>
    match m w with
    | (Returns a, w') => k a w'
    | (Raises e, w') => (Raises e, w')
    end.

Declare Scope py_scope.
Delimit Scope py_scope with py.
Notation "x <- m ;; k" := (bind m (fun x => k))
  (at level 61, m at next level, right associativity) : py_scope.
Notation "m ;; k" := (bind m (fun _ => k))
  (at level 61, right associativity) : py_scope.
Local Open Scope py_scope.

(** a pure computation that may raise, run inside [M] *)
Definition lift {A} (o : Outcome A) : M A := fun w => (o, w).

(** read the back-end object *)
Definition get_self : M Backend := fun w => (Returns (self w), w).

(** the world with the back-end object replaced *)
Definition with_self (s : Backend) (w : World) : World :=
  mkWorld s (measurement_results w) (requests w) (draws w).

(** update the back-end object *)
Definition modify (f : Backend -> Backend) : M unit :=
  fun w => (Returns tt, with_self (f (self w)) w).

(** [assert b] *)
Definition assert (b : bool) : M unit :=
  if b then ret tt else raise AssertionError.

(** [for x in l: body(x)] *)
Fixpoint for_each {A} (l : list A) (body : A -> M unit) : M unit :=
  match l with
  | [] => ret tt
  | x :: r => body x ;; for_each r body
  end.

(** [try: m  except TypeError: raise Exception(msg)] *)
Definition except_TypeError {A} (m : M A) (msg : string) : M A :=
  fun w =>
    match m w with
    | (Raises TypeError, w') => (Raises (Exception msg), w')
    | r => r
    end.

(** Field updates of the back-end object. *)
Definition set_clear (b : bool) (s : Backend) : Backend :=
  mkBackend (device s) (_num_runs s) (_retrieve_execution s) b
            (_measured_ids s) (_probabilities s) (quil s)
            (_allocated_qubits s).

Definition set_measured_ids (l : list nat) (s : Backend) : Backend :=
  mkBackend (device s) (_num_runs s) (_retrieve_execution s) (_clear s)
            l (_probabilities s) (quil s) (_allocated_qubits s).

Definition set_probabilities (d : PyDict.dict Q) (s : Backend) : Backend :=
  mkBackend (device s) (_num_runs s) (_retrieve_execution s) (_clear s)
            (_measured_ids s) d (quil s) (_allocated_qubits s).

Definition set_quil (q : string) (s : Backend) : Backend :=
  mkBackend (device s) (_num_runs s) (_retrieve_execution s) (_clear s)
            (_measured_ids s) (_probabilities s) q (_allocated_qubits s).

Definition set_allocated_qubits (l : list nat) (s : Backend) : Backend :=
  mkBackend (device s) (_num_runs s) (_retrieve_execution s) (_clear s)
            (_measured_ids s) (_probabilities s) (quil s) l.

(** [self.quil += text] *)
Definition quil_append (text : string) : M unit :=
  modify (fun s => set_quil (quil s ++ text)%string s).

(** [a_set.add(x)] on a set kept as a duplicate-free list *)
Definition set_add (x : nat) (l : list nat) : list nat :=
  if existsb (Nat.eqb x) l then l else l ++ [x].

(* ------------------------------------------------------------------ *)
(** ** The back-end *)

Definition RIGETTI_DEVICES : list string := ["8Q-Agave"; "19Q-Acorn"]%string.

(** [__init__]: the object a constructor call leaves. *)
Definition init (use_hardware : bool) (num_runs : Z) (device : string)
    (retrieve_execution : option string) : Backend :=
  mkBackend (if use_hardware then device else "QVM") num_runs
            retrieve_execution true [] [] EmptyString [].

(** The rename table [_gate_names]. *)
Definition _gate_names : PyDict.dict string :=
  [(Ops.str Ops.Tdag, "DAGGER T"); (Ops.str Ops.Sdag, "DAGGER S");
   (Ops.str_class_Ph, "PHASE")]%string.

(** [_reset] *)
Definition _reset : M unit :=
  modify (fun s => set_measured_ids [] (set_clear true s)).

(** [cmd.qubits[0][0].id] *)
Definition first_qubit (cmd : Command) : M nat :=
  match qubits cmd with
  | (q :: _) :: _ => ret q
  | _ => raise IndexError
  end.

(** [cmd.control_qubits[i].id] *)
Definition control_qubit (cmd : Command) (i : nat) : M nat :=
  match nth_error (control_qubits cmd) i with
  | Some q => ret q
  | None => raise IndexError
  end.

(** The tag loop of [_store]: the id of the first [LogicalQubitIDTag], or
    [None]. *)
Fixpoint find_logical_id (ts : list Tag) : option nat :=
  match ts with
  | [] => None
  | LogicalQubitIDTag id :: _ => Some id
  | OtherTag _ :: r => find_logical_id r
  end.

(** the instruction texts [_store] formats *)
Definition fmt_CNOT (c q : nat) : string :=
  String PyStr.nl ("CNOT " ++ PyStr.str_nat c ++ " " ++ PyStr.str_nat q).

Definition fmt_CCNOT (c c2 q : nat) : string :=
  String PyStr.nl ("CCNOT " ++ PyStr.str_nat c ++ " " ++ PyStr.str_nat c2
                   ++ " " ++ PyStr.str_nat q).

Definition fmt_CONTROLLED (g : string) (c q : nat) : string :=
  String PyStr.nl ("CONTROLLED " ++ g ++ " " ++ PyStr.str_nat c ++ " "
                   ++ PyStr.str_nat q).

Definition fmt_gate (g : string) (q : nat) : string :=
  String PyStr.nl (g ++ " " ++ PyStr.str_nat q).

Definition fmt_MEASURE (loc : nat) : string :=
  String PyStr.nl ("MEASURE " ++ PyStr.str_nat loc ++ " ["
                   ++ PyStr.str_nat loc ++ "]").

(** [_store] *)
Definition _store (cmd : Command) : M unit :=
  s <- get_self ;;
  (if _clear s
   then modify (fun s => set_allocated_qubits []
                           (set_quil EmptyString
                              (set_clear false (set_probabilities [] s))))
   else ret tt) ;;
  let gate := gate cmd in
  if Ops.eqb gate Ops.Allocate then
    q <- first_qubit cmd ;;
    modify (fun s => set_allocated_qubits (set_add q (_allocated_qubits s)) s)
  else if Ops.eqb gate Ops.Deallocate then
    ret tt
  else if Ops.eqb gate Ops.Measure then
    assert (match qubits cmd with
            | [r] => List.length r =? 1
            | _ => false
            end) ;;
    _ <- first_qubit cmd ;;
    match find_logical_id (tags cmd) with
    | None => raise AssertionError
    | Some logical_id =>
        modify (fun s => set_measured_ids (_measured_ids s ++ [logical_id]) s)
    end
  else if Ops.eqb gate Ops.NOT && (get_control_count cmd =? 1) then
    ctrl_pos <- control_qubit cmd 0 ;;
    qb_pos <- first_qubit cmd ;;
    quil_append (fmt_CNOT ctrl_pos qb_pos)
  else if Ops.eqb gate Ops.NOT && (get_control_count cmd =? 2) then
    ctrl_pos <- control_qubit cmd 0 ;;
    ctrl2_pos <- control_qubit cmd 1 ;;
    qb_pos <- first_qubit cmd ;;
    quil_append (fmt_CCNOT ctrl_pos ctrl2_pos qb_pos)
  else if Ops.is_rotation gate then
    assert (get_control_count cmd <? 2) ;;
    qb_pos <- first_qubit cmd ;;
    let gate_str := PyStr.replace_PH (PyStr.upper (Ops.str gate)) in
    if get_control_count cmd =? 1 then
      ctrl_pos <- control_qubit cmd 0 ;;
      quil_append (fmt_CONTROLLED gate_str ctrl_pos qb_pos)
    else
      quil_append (fmt_gate gate_str qb_pos)
  else
    assert (get_control_count cmd <? 2) ;;
    let gate_str :=
      match PyDict.get (Ops.str gate) _gate_names with
      | Some name => name
      | None => PyStr.upper (Ops.str gate)
      end in
    qb_pos <- first_qubit cmd ;;
    if get_control_count cmd =? 1 then
      ctrl_pos <- control_qubit cmd 0 ;;
      quil_append (fmt_CONTROLLED gate_str ctrl_pos qb_pos)
    else
      quil_append (fmt_gate gate_str qb_pos).

(** the message of the resolver's error *)
Definition unknown_qubit_msg (qb_id : nat) : string :=
  "Unknown qubit id " ++ PyStr.str_nat qb_id
  ++ ". Please make sure eng.flush() was called and that the qubit was eliminated during optimization.".

(** [_logical_to_physical] *)
Definition _logical_to_physical (env : Env) (qb_id : nat) : Outcome nat :=
  match mapper env with
  | None => Raises AssertionError
  | Some mapping =>
      match mapping qb_id with
      | None => Raises (RuntimeError (unknown_qubit_msg qb_id))
      | Some loc => Returns loc
      end
  end.

(** The inner loop of [get_probabilities]: the characters of [state] at the
    physical positions of the qubits of [qureg], in the order of [qureg]. *)
Fixpoint mapped_state (env : Env) (state : string) (qureg : list nat)
    : Outcome (list ascii) :=
  match qureg with
  | [] => Returns []
  | q :: r =>
      match _logical_to_physical env q with
      | Raises e => Raises e
      | Returns loc =>
          match String.get loc state with
          | None => Raises IndexError
          | Some c =>
              match mapped_state env state r with
              | Raises e => Raises e
              | Returns cs => Returns (c :: cs)
              end
          end
      end
  end.

(** The outer loop of [get_probabilities] over the items of the stored
    table, [acc] being [probability_dict] so far. *)
Fixpoint project_table (env : Env) (qureg : list nat)
    (table : PyDict.dict Q) (acc : PyDict.dict Q) : Outcome (PyDict.dict Q) :=
  match table with
  | [] => Returns acc
  | (state, probability) :: r =>
      match mapped_state env state qureg with
      | Raises e => Raises e
      | Returns cs =>
          project_table env qureg r (PyDict.set (PyStr.join cs) probability acc)
      end
  end.

(** [get_probabilities]; [qureg] lists the ids of the register's qubits. *)
Definition get_probabilities (env : Env) (s : Backend) (qureg : list nat)
    : Outcome (PyDict.dict Q) :=
  if List.length (_probabilities s) =? 0
  then Raises (RuntimeError "Please, run the circuit first!")
  else project_table env qureg (_probabilities s) [].

(** [self.main_engine.mapper.current_mapping[measured_id]], the lookup
    [_run] makes when it appends the measurements. *)
Definition current_mapping_lookup (env : Env) (measured_id : nat)
    : Outcome nat :=
  match mapper env with
  | None => Raises AttributeError
  | Some mapping =>
      match mapping measured_id with
      | None => Raises (KeyError measured_id)
      | Some loc => Returns loc
      end
  end.

(** [send(info, ...)]: the call is recorded and the client answers. *)
Definition call_send (env : Env) (info : Info) : M Res :=
  fun w =>
    (send env info,
     mkWorld (self w) (measurement_results w) (requests w ++ [Send info])
             (draws w)).

(** [retrieve(device=..., jobid=...)] *)
Definition call_retrieve (env : Env) (dev jobid : string) : M Res :=
  fun w =>
    (retrieve env dev jobid,
     mkWorld (self w) (measurement_results w)
             (requests w ++ [Retrieve dev jobid]) (draws w)).

(** [random.random()]: the next value of the source is taken. *)
Definition random_random (env : Env) : M Q :=
  fun w =>
    (Returns (random env (draws w)),
     mkWorld (self w) (measurement_results w) (requests w) (S (draws w))).

(** [self.main_engine.set_measurement_result(QB(ID), result)] *)
Definition set_measurement_result (ID result : nat) : M unit :=
  fun w =>
    (Returns tt,
     mkWorld (self w) (measurement_results w ++ [(ID, result)]) (requests w)
             (draws w)).

(** The counting loop of [_run]: the histogram of the shots, each shot
    printed value after value. *)
Fixpoint count_results (res : Res) (counts : PyDict.dict nat)
    : PyDict.dict nat :=
  match res with
  | [] => counts
  | result :: r =>
      let combined := PyStr.concat (map PyStr.str_nat result) in
      count_results r
        (match PyDict.get combined counts with
         | None => PyDict.set combined 1 counts
         | Some n => PyDict.set combined (n + 1) counts
         end)
  end.

(** [counts[state] * 1. / self._num_runs] *)
Definition probability_of (n : nat) (num_runs : Z) : Q :=
  Qred (inject_Z (Z.of_nat n) / inject_Z num_runs).

(** The sampling loop of [_run] over the items of [counts]: [p_sum] and
    [measured] are the loop's variables; the table is filled on the way. *)
Fixpoint sample (P : Q) (counts : PyDict.dict nat) (p_sum : Q)
    (measured : string) : M string :=
  match counts with
  | [] => ret measured
  | (state, n) :: r =>
      s <- get_self ;;
      if (_num_runs s =? 0)%Z then raise ZeroDivisionError
      else
        let probability := probability_of n (_num_runs s) in
        let state := PyStr.rev state in
        let p_sum := Qred (p_sum + probability) in
        let measured :=
          if Qle_bool P p_sum && String.eqb measured EmptyString
          then state else measured in
        modify (fun s => set_probabilities
                           (PyDict.set state probability (_probabilities s))
                           s) ;;
        sample P r p_sum measured
  end.

(** The registration loop of [_run]. *)
Definition register (env : Env) (measured : string) (ids : list nat)
    : M unit :=
  for_each ids (fun ID =>
    location <- lift (_logical_to_physical env ID) ;;
    match String.get location measured with
    | None => raise IndexError
    | Some c =>
        match PyStr.int_of_char c with
        | None => raise ValueError
        | Some result => set_measurement_result ID result
        end
    end).

(** The payload [_run] builds from the object. *)
Definition make_info (s : Backend) : Info :=
  mkInfo (PyStr.strip (quil s)) (_num_runs s) 5 (device s).

(** One turn of the loop of [_run] that appends the measurements. *)
Definition append_measurement (env : Env) (measured_id : nat) : M unit :=
  qb_loc <- lift (current_mapping_lookup env measured_id) ;;
  quil_append (fmt_MEASURE qb_loc).

(** The body of the [try] block of [_run]. *)
Definition run_try (env : Env) (info : Info) : M unit :=
  s <- get_self ;;
  res <- match _retrieve_execution s with
         | None => call_send env info
         | Some jobid => call_retrieve env (device s) jobid
         end ;;
  let counts := count_results res [] in
  P <- random_random env ;;
  measured <- sample P counts 0%Q EmptyString ;;
  s <- get_self ;;
  register env measured (_measured_ids s) ;;
  _reset.

(** [_run] *)
Definition _run (env : Env) : M unit :=
  s <- get_self ;;
  if String.eqb (quil s) EmptyString then ret tt
  else
    for_each (_measured_ids s) (append_measurement env) ;;
    s <- get_self ;;
    (match _allocated_qubits s with
     | [] => raise ValueError          (* max() of an empty set *)
     | _ => ret tt
     end) ;;
    let info := make_info s in
    except_TypeError (run_try env info)
                     "Failed to run the circuit. Aborting.".

(** [receive] *)
Definition receive (env : Env) (command_list : list Command) : M unit :=
  for_each command_list (fun cmd =>
    if negb (Ops.eqb (gate cmd) Ops.FlushGate) then _store cmd
    else _run env ;; _reset).

(* ------------------------------------------------------------------ *)
(** ** The statements' vocabulary *)

(** *** Availability *)





(** *** Storing commands *)

(** What the first lines of [_store] make of the object: at a circuit
    boundary the table, the text and the allocation set are emptied. *)
Definition begin_circuit (s : Backend) : Backend :=
  if _clear s
  then set_allocated_qubits []
         (set_quil EmptyString (set_clear false (set_probabilities [] s)))
  else s.

(** [id] is the logical id of the first logical-qubit tag of [ts]. *)
Definition first_logical_tag (ts : list Tag) (id : nat) : Prop :=
  exists pre post,
    ts = pre ++ LogicalQubitIDTag id :: post
    /\ forall i, ~ In (LogicalQubitIDTag i) pre.

(** a fresh simulator back-end with the default shot count *)
Definition fresh_backend : Backend := init false 1024 "8Q-Agave" None.

(** the world around a fresh back-end *)
Definition fresh_world : World := mkWorld fresh_backend [] [] 0.

(** the mapping that places the logical qubits 0, 1, 2 at the physical
    positions 0, 1, 2 and knows no other qubit *)
Definition identity3 : nat -> option nat :=
  fun n => if n <? 3 then Some n else None.

(** a client that is never reached *)
Definition no_client : Env :=
  mkEnv None (fun _ => Raises TypeError) (fun _ _ => Raises TypeError)
        (fun _ => 0%Q).

(** commands used as examples *)
Definition allocate_cmd (q : nat) : Command :=
  mkCommand Ops.Allocate [[q]] [] [].

Definition x_cmd (q : nat) : Command := mkCommand Ops.X [[q]] [] [].

Definition measure_cmd (q logical_id : nat) : Command :=
  mkCommand Ops.Measure [[q]] [] [LogicalQubitIDTag logical_id].

Definition flush_cmd : Command := mkCommand Ops.FlushGate [] [] [].

(** *** The resolver at the flush boundary *)

(** a mapping that knows qubit 0 only *)
Definition only_qubit0 : nat -> option nat :=
  fun n => if n =? 0 then Some 0 else None.

(** an environment whose mapper knows qubit 0 only; the client answers one
    shot *)
Definition env_only_qubit0 : Env :=
  mkEnv (Some only_qubit0) (fun _ => Returns [[0]])
        (fun _ _ => Returns [[0]]) (fun _ => 0%Q).

(** a circuit measuring a qubit whose logical id, 1, the mapper does not
    know *)
Definition unmapped_measure_circuit : list Command :=
  [allocate_cmd 0; x_cmd 0; measure_cmd 0 1; flush_cmd].

(** *** Projecting the stored table *)

(** The output string of one stored state under a register: the joined
    characters [get_probabilities] reads for it. *)
Definition projection (env : Env) (qureg : list nat) (state : string)
    : Outcome string :=
  match mapped_state env state qureg with
  | Returns cs => Returns (PyStr.join cs)
  | Raises e => Raises e
  end.

(** The probability of the last item of [table] whose state projects to
    [k], if there is one. *)
Fixpoint last_projecting (env : Env) (qureg : list nat) (k : string)
    (table : PyDict.dict Q) : option Q :=
  match table with
  | [] => None
  | (state, p) :: r =>
      match last_projecting env qureg k r with
      | Some p' => Some p'
      | None =>
          match projection env qureg state with
          | Returns k' => if String.eqb k k' then Some p else None
          | Raises _ => None
          end
      end
  end.

(** an environment with the mapping [identity3] and an unused client *)
Definition env_identity3 : Env :=
  mkEnv (Some identity3) (fun _ => Raises TypeError)
        (fun _ _ => Raises TypeError) (fun _ => 0%Q).

(** the table a run leaves for the histogram 00111: 396, 00101: 27,
    00000: 601 over 1024 shots *)
Definition example_table : PyDict.dict Q :=
  [("11100", 99 # 256); ("10100", 27 # 1024); ("00000", 601 # 1024)]%Q.

(** a back-end holding [example_table] *)
Definition example_backend : Backend :=
  set_probabilities example_table fresh_backend.

(** *** Sampling *)

(** The table the sampling loop leaves: every state of [counts], in order,
    entered reversed with its probability. *)
Fixpoint tabulated (num_runs : Z) (counts : PyDict.dict nat)
    (table : PyDict.dict Q) : PyDict.dict Q :=
  match counts with
  | [] => table
  | (state, n) :: r =>
      tabulated num_runs r
        (PyDict.set (PyStr.rev state) (probability_of n num_runs) table)
  end.

(** The value of [measured] the sampling loop ends with. *)
Fixpoint sampled (P : Q) (num_runs : Z) (counts : PyDict.dict nat)
    (p_sum : Q) (measured : string) : string :=
  match counts with
  | [] => measured
  | (state, n) :: r =>
      let p_sum := Qred (p_sum + probability_of n num_runs) in
      sampled P num_runs r p_sum
        (if Qle_bool P p_sum && String.eqb measured EmptyString
         then PyStr.rev state else measured)
  end.

(** The probability mass of a run of histogram items: the sum of their
    counts, each divided by the shot count. *)
Fixpoint mass (num_runs : Z) (items : PyDict.dict nat) : Q :=
  match items with
  | [] => 0
  | (_, n) :: r => inject_Z (Z.of_nat n) / inject_Z num_runs + mass num_runs r
  end.



(** *** The round trip of the description *)

(** the histogram 00111: 396, 00101: 27, 00000: 601 *)
Definition example_histogram : PyDict.dict nat :=
  [("00111", 396); ("00101", 27); ("00000", 601)].

(** 1024 shots with that histogram *)
Definition example_shots : Res :=
  repeat [0; 0; 1; 1; 1] 396 ++ repeat [0; 0; 1; 0; 1] 27
  ++ repeat [0; 0; 0; 0; 0] 601.

(** an environment with the mapping [identity3] whose client answers
    [example_shots]; every draw is one half *)
Definition example_env : Env :=
  mkEnv (Some identity3) (fun _ => Returns example_shots)
        (fun _ _ => Returns example_shots) (fun _ => (1 # 2)%Q).

(** a circuit on three qubits, all measured, and its flush *)
Definition example_circuit : list Command :=
  [allocate_cmd 0; allocate_cmd 1; allocate_cmd 2; x_cmd 0;
   measure_cmd 0 0; measure_cmd 1 1; measure_cmd 2 2; flush_cmd].

(** the probabilities the description expects for the register
    [q2, q0, q1] *)
Definition claimed_roundtrip : PyDict.dict Q :=
  [("111", 38671875 # 100000000); ("101", 263671875 # 10000000000);
   ("000", 5869140625 # 10000000000)]%Q.

(** the probabilities the back-end returns for it *)
Definition roundtrip : PyDict.dict Q :=
  [("111", 99 # 256); ("110", 27 # 1024); ("000", 601 # 1024)]%Q.

(** *** Resetting *)

(** What [_reset] establishes: the object is marked clear and no measured
    id is kept. *)
Definition discarded (s : Backend) : Prop :=
  _clear s = true /\ _measured_ids s = [].

(** the object with its program text, allocation set and probability table
    emptied *)
Definition emptied (s : Backend) : Backend :=
  set_allocated_qubits [] (set_quil EmptyString (set_probabilities [] s)).

(** an environment with the mapping [identity3] whose client fails *)
Definition failing_env : Env :=
  mkEnv (Some identity3) (fun _ => Raises TypeError)
        (fun _ _ => Raises TypeError) (fun _ => 0%Q).

(** one qubit, one gate, one measurement, and the flush *)
Definition small_circuit : list Command :=
  [allocate_cmd 0; x_cmd 0; measure_cmd 0 0; flush_cmd].

(** an environment with the mapping [identity3] whose client answers two
    shots; every draw is 0 *)
Definition two_shots_env : Env :=
  mkEnv (Some identity3) (fun _ => Returns [[1]; [0]])
        (fun _ _ => Returns [[1]; [0]]) (fun _ => 0%Q).

(** the world a small circuit leaves before its flush *)
Definition loaded_world : World :=
  snd (receive no_client [allocate_cmd 0; x_cmd 0; measure_cmd 0 0]
               fresh_world).

(** *** Sums of probabilities *)


(** the sum of the counts of a histogram *)
Definition count_total (counts : PyDict.dict nat) : nat :=
  fold_right Nat.add 0 (PyDict.values counts).




(** *** The flush *)

(** The physical positions [_run] finds for the measured ids, in order, up
    to the first id the mapping does not hold, and the exception raised
    there, if any. *)
Fixpoint resolved (env : Env) (ids : list nat) : list nat * option Exn :=
  match ids with
  | [] => ([], None)
  | id :: r =>
      match current_mapping_lookup env id with
      | Raises e => ([], Some e)
      | Returns loc => (loc :: fst (resolved env r), snd (resolved env r))
      end
  end.

(** the object once [_run] has appended the measurements to its text *)
Definition with_measurements (env : Env) (s : Backend) : Backend :=
  set_quil (quil s
            ++ PyStr.concat
                 (map fmt_MEASURE (fst (resolved env (_measured_ids s)))))
           s.

(** the answer of the client to the call [_run] makes for the object [s] *)
Definition client_answer (env : Env) (s : Backend) : Outcome Res :=
  match _retrieve_execution s with
  | None => send env (make_info s)
  | Some jobid => retrieve env (device s) jobid
  end.

(** the call [_run] makes to the client for the object [s] *)
Definition client_request (s : Backend) : Request :=
  match _retrieve_execution s with
  | None => Send (make_info s)
  | Some jobid => Retrieve (device s) jobid
  end.

(** the message of the exception a failed run ends with *)
Definition run_failed_msg : string := "Failed to run the circuit. Aborting.".


(** *** The lines of a program *)

(** every character of [s] passes the test [p] *)
Fixpoint all_chars (p : ascii -> bool) (s : string) : bool :=
  match s with
  | EmptyString => true
  | String c r => p c && all_chars p r
  end.

Definition is_digit (c : ascii) : bool :=
  let n := nat_of_ascii c in (48 <=? n) && (n <=? 57).

Definition not_nl (c : ascii) : bool := negb (Ascii.eqb c PyStr.nl).

Definition not_space (c : ascii) : bool := negb (PyStr.isspace c).

(** [s] holds no line feed *)
Definition no_nl (s : string) : bool := all_chars not_nl s.

(** [s] begins with a character that is not white space *)
Definition head_nonspace (s : string) : bool :=
  match s with
  | EmptyString => false
  | String c _ => not_space c
  end.

(** [s] ends with a character that is not white space *)
Fixpoint last_nonspace (s : string) : bool :=
  match s with
  | EmptyString => false
  | String c EmptyString => not_space c
  | String _ r => last_nonspace r
  end.

(** the text of a list of instructions as [_store] and [_run] build it:
    each instruction after a line feed *)
Definition text_of (lines : list string) : string :=
  PyStr.concat (map (String PyStr.nl) lines).


(** the line is a measurement instruction *)
Definition is_measurement (line : string) : bool :=
  String.prefix "MEASURE " line.

(** a well-formed line of the program that is not a measurement *)
Definition gate_line (line : string) : Prop :=
  no_nl line = true /\ head_nonspace line = true
  /\ last_nonspace line = true /\ is_measurement line = false.


(** the printed angle of a rotation gate holds no line feed *)
Definition plain_angle (g : Ops.Gate) : bool :=
  match g with
  | Ops.Rx a | Ops.Ry a | Ops.Rz a | Ops.Ph a => no_nl a
  | _ => true
  end.

(** a gate operation the availability predicate admits *)
Definition accepted (cmd : Command) : Prop :=
  is_available cmd = true /\ plain_angle (gate cmd) = true.

(** the requests that submit a program *)
Definition submits (rq : Request) (program : string) : Prop :=
  exists info, rq = Send info /\ info_quil info = program.

(** a gate name that can open an instruction which is no measurement *)
Definition name_ok (g : string) : Prop :=
  no_nl g = true /\ head_nonspace g = true /\ String.prefix "M" g = false.

(** the name [_store] prints for a rotation or phase gate *)
Definition rotation_name (g : Ops.Gate) : string :=
  PyStr.replace_PH (PyStr.upper (Ops.str g)).

(** the name [_store] prints for any other gate *)
Definition plain_name (g : Ops.Gate) : string :=
  match PyDict.get (Ops.str g) _gate_names with
  | Some name => name
  | None => PyStr.upper (Ops.str g)
  end.

(** *** The order of the submitted program *)





(* ------------------------------------------------------------------ *)
(** ** Further vocabulary *)

(** the gates [_store] keeps a record of without writing an instruction *)
Definition bookkeeping (g : Ops.Gate) : bool :=
  match g with
  | Ops.Allocate | Ops.Deallocate | Ops.Measure => true
  | _ => false
  end.

(** the logical id a command adds to the measured ids when it is stored *)
Definition measured_id_of (cmd : Command) : list nat :=
  if Ops.eqb (gate cmd) Ops.Measure
  then match find_logical_id (tags cmd) with
       | Some logical_id => [logical_id]
       | None => []
       end
  else [].

(** a world at a circuit boundary (object marked clear) whose table is
    left from an earlier run *)
Definition boundary_world : World :=
  with_self (set_clear true (set_probabilities example_table fresh_backend))
            fresh_world.

(** a world whose object holds the same table in the middle of a circuit *)
Definition running_world : World :=
  with_self (set_clear false (set_probabilities example_table fresh_backend))
            fresh_world.

(** a command with a flush gate or a bookkeeping gate *)
Definition writes_no_text (cmd : Command) : Prop :=
  gate cmd = Ops.FlushGate \/ bookkeeping (gate cmd) = true.

(** the settings and the accumulated program of two objects agree (all
    fields but the table, the measured ids and the clear mark) *)
Definition same_program (s s' : Backend) : Prop :=
  device s' = device s /\ _num_runs s' = _num_runs s
  /\ _retrieve_execution s' = _retrieve_execution s
  /\ quil s' = quil s /\ _allocated_qubits s' = _allocated_qubits s.

(** what an exception raised inside the [try] block of [_run] becomes *)
Definition reraised (e : Exn) : Exn :=
  match e with
  | TypeError => Exception run_failed_msg
  | _ => e
  end.

(** an environment with the mapping [identity3] whose client raises a
    run-time error *)
Definition refusing_env : Env :=
  mkEnv (Some identity3) (fun _ => Raises (RuntimeError "offline"))
        (fun _ _ => Raises (RuntimeError "offline")) (fun _ => 0%Q).

(** a gate on a qubit that was never allocated, then a flush *)
Definition unallocated_circuit : list Command := [x_cmd 0].

(** the world of a circuit that measures the logical ids 0 and 1, before
    its flush *)
Definition half_mapped_world : World :=
  snd (receive no_client
               [allocate_cmd 0; x_cmd 0; measure_cmd 0 0; measure_cmd 1 1]
               fresh_world).

(* ------------------------------------------------------------------ *)
(** ** Availability *)

Lemma eqb_true_iff (g1 g2 : Ops.Gate) : Ops.eqb g1 g2 = true <-> g1 = g2.
Proof.
  unfold Ops.eqb. destruct (Ops.Gate_eq_dec g1 g2); split; congruence.
Qed.

Lemma eqb_refl (g : Ops.Gate) : Ops.eqb g g = true.
Proof. now apply eqb_true_iff. Qed.

Lemma mem_true_iff (g : Ops.Gate) (gs : list Ops.Gate) :
  Ops.mem g gs = true <-> In g gs.
Proof.
  unfold Ops.mem. rewrite existsb_exists. split.
  - intros [x [Hin Heq]]. apply eqb_true_iff in Heq. now subst.
  - intros Hin. exists g. split; [assumption | apply eqb_refl].
Qed.



(* ------------------------------------------------------------------ *)
(** ** Reading the table before a run *)

(** C7: with an empty probability table [get_probabilities] raises the
    no-data error, whatever the register and the mapper: no qubit is looked
    up before. *)
Theorem get_probabilities_no_data (env : Env) (s : Backend)
    (qureg : list nat) :
  _probabilities s = [] ->
  get_probabilities env s qureg
  = Raises (RuntimeError "Please, run the circuit first!").
Proof.
  intros Hempty. unfold get_probabilities. rewrite Hempty. reflexivity.
Qed.

Lemma get_probabilities_no_data_witness :
  _probabilities fresh_backend = []
  /\ get_probabilities no_client fresh_backend [0; 1]
     = Raises (RuntimeError "Please, run the circuit first!").
Proof.
  split; [reflexivity |].
  apply (get_probabilities_no_data no_client fresh_backend [0; 1]).
  reflexivity.
Defined.

(* ------------------------------------------------------------------ *)
(** ** The resolver at the flush boundary *)

(** C5: on a flush that measures a logical id the mapping does not hold,
    [_run] raises the dictionary's [KeyError], where the resolver
    [_logical_to_physical] raises its [RuntimeError] with the hint. *)
Theorem run_unmapped_measured_id :
  fst (receive env_only_qubit0 unmapped_measure_circuit fresh_world)
  = Raises (KeyError 1)
  /\ _logical_to_physical env_only_qubit0 1
     = Raises (RuntimeError (unknown_qubit_msg 1)).
Proof. split; reflexivity. Qed.

(* ------------------------------------------------------------------ *)
(** ** Storing a measurement *)

Lemma find_logical_id_first (ts : list Tag) (id : nat) :
  find_logical_id ts = Some id <-> first_logical_tag ts id.
Proof.
  unfold first_logical_tag. induction ts as [| t ts IH]; simpl.
  - split; [discriminate |].
    intros (pre & post & Heq & _). now destruct pre.
  - destruct t as [i | name].
    + split.
      * intros [= ->]. exists [], ts. split; [reflexivity | intros i H; exact H].
      * intros (pre & post & Heq & Hpre). destruct pre as [| t pre].
        -- now injection Heq as ->.
        -- injection Heq as <- _. exfalso. apply (Hpre i). now left.
    + rewrite IH. split.
      * intros (pre & post & -> & Hpre). exists (OtherTag name :: pre), post.
        split; [reflexivity |].
        intros i [H | H]; [discriminate H | exact (Hpre i H)].
      * intros (pre & post & Heq & Hpre). destruct pre as [| t pre].
        -- discriminate Heq.
        -- injection Heq as _ ->. exists pre, post.
           split; [reflexivity |]. intros i H. apply (Hpre i). now right.
Qed.

Lemma find_logical_id_none (ts : list Tag) :
  find_logical_id ts = None <-> forall i, ~ In (LogicalQubitIDTag i) ts.
Proof.
  induction ts as [| t ts IH]; simpl.
  - split; [intros _ i H; exact H | reflexivity].
  - destruct t as [i | name].
    + split; [discriminate |]. intros H. exfalso. apply (H i). now left.
    + rewrite IH. split.
      * intros H i [Hd | Hin]; [discriminate Hd | exact (H i Hin)].
      * intros H i Hin. apply (H i). now right.
Qed.

Lemma find_logical_id_some (ts : list Tag) :
  (exists id, find_logical_id ts = Some id)
  <-> exists i, In (LogicalQubitIDTag i) ts.
Proof.
  destruct (find_logical_id ts) as [id |] eqn:E.
  - split; [| intros _; now exists id].
    intros _. apply find_logical_id_first in E.
    destruct E as (pre & post & -> & _). exists id.
    apply in_or_app. right. now left.
  - split; [intros [id H]; discriminate H |].
    intros [i Hin]. exfalso.
    exact (proj1 (find_logical_id_none ts) E i Hin).
Qed.

(** The outcome of storing a Measure command, case by case. *)
Lemma store_Measure (qs : list (list nat)) (cs : list nat) (ts : list Tag)
    (w : World) :
  _store (mkCommand Ops.Measure qs cs ts) w
  = match qs, find_logical_id ts with
    | [[q]], Some id =>
        (Returns tt,
         with_self (set_measured_ids (_measured_ids (self w) ++ [id])
                                     (begin_circuit (self w))) w)
    | _, _ => (Raises AssertionError, with_self (begin_circuit (self w)) w)
    end.
Proof.
  destruct w as [s mr rq d]. unfold _store, begin_circuit, bind, get_self.
  simpl self.
  destruct (_clear s) eqn:Hclear; simpl;
    (destruct qs as [| [| q [| q' r]] [| r' qs]]; simpl;
     try reflexivity;
     destruct (find_logical_id ts); simpl; try reflexivity;
     unfold with_self; simpl; rewrite ?Hclear; reflexivity).
Qed.

(** C8: storing a Measure command succeeds exactly when the command has one
    register of one qubit and carries a logical-qubit tag; without a logical
    tag it fails on the assertion; when it succeeds, the logical id of the
    (first) tag is appended to the measured ids and no text is added to the
    program. *)
Theorem store_Measure_requires_one_qubit_and_tag
    (qs : list (list nat)) (cs : list nat) (ts : list Tag) (w : World) :
  let cmd := mkCommand Ops.Measure qs cs ts in
  (fst (_store cmd w) = Returns tt
   <-> (exists q, qs = [[q]]) /\ (exists i, In (LogicalQubitIDTag i) ts))
  /\ (fst (_store cmd w) <> Returns tt ->
      fst (_store cmd w) = Raises AssertionError)
  /\ ((forall i, ~ In (LogicalQubitIDTag i) ts) ->
      fst (_store cmd w) = Raises AssertionError)
  /\ (forall q id,
        qs = [[q]] -> first_logical_tag ts id ->
        _store cmd w
        = (Returns tt,
           with_self (set_measured_ids (_measured_ids (self w) ++ [id])
                                       (begin_circuit (self w))) w)
        /\ quil (self (snd (_store cmd w))) = quil (begin_circuit (self w))).
Proof.
  cbv zeta. rewrite store_Measure.
  split; [split | split; [| split]].
  - intros Hok.
    destruct qs as [| [| q [| q' r]] [| r' qs]]; try discriminate Hok.
    destruct (find_logical_id ts) as [id |] eqn:E; [| discriminate Hok].
    split; [now exists q |].
    apply find_logical_id_some. now exists id.
  - intros [[q ->] Htag]. apply find_logical_id_some in Htag.
    destruct Htag as [id ->]. reflexivity.
  - intros Hfail.
    destruct qs as [| [| q [| q' r]] [| r' qs]]; try reflexivity.
    destruct (find_logical_id ts); [now elim Hfail | reflexivity].
  - intros Hnone. apply find_logical_id_none in Hnone. rewrite Hnone.
    now destruct qs as [| [| q [| q' r]] [| r' qs]].
  - intros q id -> Htag. apply find_logical_id_first in Htag.
    rewrite Htag. split; reflexivity.
Qed.

Lemma store_Measure_requires_one_qubit_and_tag_witness :
  first_logical_tag [OtherTag "t"; LogicalQubitIDTag 7] 7
  /\ _measured_ids
       (self (snd (_store (mkCommand Ops.Measure [[2]] []
                                     [OtherTag "t"; LogicalQubitIDTag 7])
                          fresh_world))) = [7]
  /\ quil
       (self (snd (_store (mkCommand Ops.Measure [[2]] []
                                     [OtherTag "t"; LogicalQubitIDTag 7])
                          fresh_world))) = EmptyString.
Proof.
  assert (Htag : first_logical_tag [OtherTag "t"; LogicalQubitIDTag 7] 7).
  { exists [OtherTag "t"], []. split; [reflexivity |].
    intros i [H | H]; [discriminate H | exact H]. }
  split; [exact Htag |].
  destruct (store_Measure_requires_one_qubit_and_tag
              [[2]] [] [OtherTag "t"; LogicalQubitIDTag 7] fresh_world)
    as (_ & _ & _ & Hok).
  destruct (Hok 2 7 eq_refl Htag) as [Heq Hquil].
  split.
  - rewrite Heq. reflexivity.
  - rewrite Hquil. reflexivity.
Defined.

(* ------------------------------------------------------------------ *)
(** ** Dictionaries *)

Lemma dict_get_set_same {V} (k : string) (v : V) (d : PyDict.dict V) :
  PyDict.get k (PyDict.set k v d) = Some v.
Proof.
  induction d as [| [k' v'] d IH]; simpl.
  - now rewrite String.eqb_refl.
  - destruct (String.eqb k k') eqn:E; simpl; rewrite E; [reflexivity | exact IH].
Qed.

Lemma dict_get_set_other {V} (k k' : string) (v : V) (d : PyDict.dict V) :
  k <> k' -> PyDict.get k (PyDict.set k' v d) = PyDict.get k d.
Proof.
  intros Hne. induction d as [| [k2 v2] d IH]; simpl.
  - apply String.eqb_neq in Hne. now rewrite Hne.
  - destruct (String.eqb k' k2) eqn:E; simpl.
    + apply String.eqb_eq in E. subst k2.
      apply String.eqb_neq in Hne. now rewrite Hne.
    + now rewrite IH.
Qed.

Lemma dict_get_none_iff {V} (k : string) (d : PyDict.dict V) :
  PyDict.get k d = None <-> ~ In k (PyDict.keys d).
Proof.
  induction d as [| [k' v'] d IH]; simpl.
  - tauto.
  - destruct (String.eqb k k') eqn:E.
    + apply String.eqb_eq in E. subst. split; [discriminate | tauto].
    + apply String.eqb_neq in E. rewrite IH. split.
      * intros H [H1 | H1]; [now elim E | contradiction].
      * tauto.
Qed.

Lemma dict_set_new {V} (k : string) (v : V) (d : PyDict.dict V) :
  ~ In k (PyDict.keys d) -> PyDict.set k v d = d ++ [(k, v)].
Proof.
  induction d as [| [k' v'] d IH]; simpl; intros Hnot.
  - reflexivity.
  - destruct (String.eqb k k') eqn:E.
    + apply String.eqb_eq in E. subst. tauto.
    + rewrite IH; tauto.
Qed.

(* ------------------------------------------------------------------ *)
(** ** Projecting the stored table *)

Lemma project_table_get (env : Env) (qureg : list nat) (k : string)
    (table acc d : PyDict.dict Q) :
  project_table env qureg table acc = Returns d ->
  PyDict.get k d
  = match last_projecting env qureg k table with
    | Some p => Some p
    | None => PyDict.get k acc
    end.
Proof.
  revert acc. induction table as [| [state p] r IH]; simpl; intros acc H.
  - now injection H as ->.
  - unfold projection.
    destruct (mapped_state env state qureg) as [cs | e]; [| discriminate H].
    rewrite (IH _ H).
    destruct (last_projecting env qureg k r) as [p' |]; [reflexivity |].
    destruct (String.eqb k (PyStr.join cs)) eqn:E.
    + apply String.eqb_eq in E. subst k. apply dict_get_set_same.
    + apply String.eqb_neq in E. now apply dict_get_set_other.
Qed.

Lemma last_projecting_none (env : Env) (qureg : list nat) (k : string)
    (table : PyDict.dict Q) :
  (forall state p, In (state, p) table ->
                   projection env qureg state <> Returns k) ->
  last_projecting env qureg k table = None.
Proof.
  induction table as [| [state p] r IH]; simpl; intros H; [reflexivity |].
  rewrite IH by (intros s' p' Hin; apply (H s' p'); now right).
  specialize (H state p (or_introl eq_refl)).
  destruct (projection env qureg state) as [k' |]; [| reflexivity].
  destruct (String.eqb k k') eqn:E; [| reflexivity].
  apply String.eqb_eq in E. now subst.
Qed.

Lemma last_projecting_split (env : Env) (qureg : list nat) (k : string)
    (pre post : PyDict.dict Q) (state : string) (p : Q) :
  projection env qureg state = Returns k ->
  (forall state' p', In (state', p') post ->
                     projection env qureg state' <> Returns k) ->
  last_projecting env qureg k (pre ++ (state, p) :: post) = Some p.
Proof.
  intros Hk Hpost. induction pre as [| [s0 p0] pre IH]; simpl.
  - rewrite (last_projecting_none _ _ _ _ Hpost), Hk.
    now rewrite String.eqb_refl.
  - now rewrite IH.
Qed.

(** C10: when several stored states project to one output string under the
    register, [get_probabilities] maps that string to the probability of the
    state that comes last in the table's insertion order, whatever the
    states before it carry: earlier values are overwritten, not added. *)
Theorem get_probabilities_last_state_wins (env : Env) (s : Backend)
    (qureg : list nat) (d pre post : PyDict.dict Q) (state k : string)
    (p : Q) :
  get_probabilities env s qureg = Returns d ->
  _probabilities s = pre ++ (state, p) :: post ->
  projection env qureg state = Returns k ->
  (forall state' p', In (state', p') post ->
                     projection env qureg state' <> Returns k) ->
  PyDict.get k d = Some p.
Proof.
  intros Hget Htable Hk Hpost. unfold get_probabilities in Hget.
  rewrite Htable in Hget.
  destruct (List.length (pre ++ (state, p) :: post) =? 0);
    [discriminate Hget |].
  rewrite (project_table_get _ _ k _ _ _ Hget).
  now rewrite (last_projecting_split _ _ _ _ _ _ _ Hk Hpost).
Qed.

Lemma get_probabilities_last_state_wins_witness :
  get_probabilities env_identity3 example_backend [0]
  = Returns [("1", 27 # 1024); ("0", 601 # 1024)]%Q
  /\ projection env_identity3 [0] "11100" = Returns "1"
  /\ projection env_identity3 [0] "10100" = Returns "1"
  /\ PyDict.get "1" [("1", 27 # 1024); ("0", 601 # 1024)]%Q
     = Some (27 # 1024)%Q.
Proof.
  split; [reflexivity |]. split; [reflexivity |]. split; [reflexivity |].
  apply (get_probabilities_last_state_wins
           env_identity3 example_backend [0]
           [("1", 27 # 1024); ("0", 601 # 1024)]%Q
           [("11100", 99 # 256)%Q] [("00000", 601 # 1024)%Q]
           "10100" "1" (27 # 1024)%Q).
  - reflexivity.
  - reflexivity.
  - reflexivity.
  - intros state' p' [H | []]. injection H as <- _. discriminate.
Defined.

(* ------------------------------------------------------------------ *)
(** ** The monad and the object's fields *)

Lemma with_self_with_self (s s' : Backend) (w : World) :
  with_self s' (with_self s w) = with_self s' w.
Proof. reflexivity. Qed.

Lemma with_self_self (w : World) : with_self (self w) w = w.
Proof. now destruct w. Qed.

Lemma self_with_self (s : Backend) (w : World) : self (with_self s w) = s.
Proof. reflexivity. Qed.

Lemma set_probabilities_twice (d d' : PyDict.dict Q) (s : Backend) :
  set_probabilities d' (set_probabilities d s) = set_probabilities d' s.
Proof. reflexivity. Qed.

Lemma set_probabilities_same (s : Backend) :
  set_probabilities (_probabilities s) s = s.
Proof. now destruct s. Qed.

Lemma set_quil_twice (q q' : string) (s : Backend) :
  set_quil q' (set_quil q s) = set_quil q' s.
Proof. reflexivity. Qed.

Lemma set_quil_same (s : Backend) : set_quil (quil s) s = s.
Proof. now destruct s. Qed.

(* ------------------------------------------------------------------ *)
(** ** The sampling loop *)

Lemma sample_eq (P : Q) (counts : PyDict.dict nat) (p_sum : Q)
    (measured : string) (w : World) :
  _num_runs (self w) <> 0%Z ->
  sample P counts p_sum measured w
  = (Returns (sampled P (_num_runs (self w)) counts p_sum measured),
     with_self (set_probabilities
                  (tabulated (_num_runs (self w)) counts
                             (_probabilities (self w)))
                  (self w)) w).
Proof.
  revert p_sum measured w.
  induction counts as [| [state n] r IH]; intros p_sum measured w Hn; simpl.
  - unfold ret. now rewrite set_probabilities_same, with_self_self.
  - unfold bind, get_self, modify. simpl.
    apply Z.eqb_neq in Hn. rewrite Hn. apply Z.eqb_neq in Hn.
    rewrite IH by exact Hn. reflexivity.
Qed.

Lemma sample_zero_runs (P : Q) (counts : PyDict.dict nat) (p_sum : Q)
    (measured : string) (w : World) :
  _num_runs (self w) = 0%Z -> counts <> [] ->
  sample P counts p_sum measured w = (Raises ZeroDivisionError, w).
Proof.
  intros Hn Hne. destruct counts as [| [state n] r]; [now elim Hne |].
  simpl. unfold bind, get_self. simpl. now rewrite Hn.
Qed.

(* ------------------------------------------------------------------ *)
(** ** The round trip of the description *)

(** C3, as stated, fails: for the histogram of the description, the
    identity mapping of the three measured qubits and the register
    [q2, q0, q1], the returned dictionary has no key 101 (the state 00101
    comes out under 110). *)
Lemma roundtrip_is_not_as_claimed :
  count_results example_shots [] = example_histogram
  /\ ~ exists d,
         get_probabilities example_env
           (self (snd (receive example_env example_circuit fresh_world)))
           [2; 0; 1] = Returns d
         /\ PyDict.equal Qeq d claimed_roundtrip.
Proof.
  split; [vm_compute; reflexivity |].
  intros [d [Hget Heq]].
  vm_compute in Hget. injection Hget as <-.
  specialize (Heq "101"%string). vm_compute in Heq. exact Heq.
Qed.

(** C3 (amended): from the histogram 00111: 396, 00101: 27, 00000: 601
    over 1024 shots the run stores the reversed states 11100, 10100, 00000
    with the probabilities 0.38671875, 0.0263671875 and 0.5869140625, and,
    the qubits 0, 1, 2 being placed at the positions 0, 1, 2, the register
    [q2, q0, q1] yields 111, 110 and 000 with these probabilities. *)
Theorem roundtrip_example (env : Env) (w : World) (P : Q)
    (mapping : nat -> option nat) :
  _num_runs (self w) = 1024%Z ->
  _probabilities (self w) = [] ->
  mapper env = Some mapping ->
  mapping 0 = Some 0 -> mapping 1 = Some 1 -> mapping 2 = Some 2 ->
  _probabilities
    (self (snd (sample P example_histogram 0 EmptyString w)))
  = example_table
  /\ get_probabilities env
       (self (snd (sample P example_histogram 0 EmptyString w))) [2; 0; 1]
     = Returns roundtrip.
Proof.
  intros Hruns Hempty Hmapper H0 H1 H2.
  rewrite sample_eq by (rewrite Hruns; discriminate).
  rewrite Hruns, Hempty. simpl snd. rewrite self_with_self.
  change (tabulated 1024 example_histogram []) with example_table.
  split; [reflexivity |].
  unfold get_probabilities. simpl.
  unfold _logical_to_physical. rewrite Hmapper, H0, H1, H2. reflexivity.
Qed.

Lemma roundtrip_example_witness :
  get_probabilities env_identity3
    (self (snd (sample (1 # 2) example_histogram 0 EmptyString fresh_world)))
    [2; 0; 1]
  = Returns roundtrip.
Proof.
  apply (roundtrip_example env_identity3 fresh_world (1 # 2) identity3);
    reflexivity.
Defined.

(* ------------------------------------------------------------------ *)
(** ** Resetting *)

(** C9, as stated, fails: when the client raises, the flush raises and the
    object is left as [_run] had it, not cleared, with its measured ids and
    its program text (the measurements appended). *)
Lemma failed_flush_keeps_the_accumulator :
  fst (receive failing_env small_circuit fresh_world)
  = Raises (Exception "Failed to run the circuit. Aborting.")
  /\ _clear (self (snd (receive failing_env small_circuit fresh_world)))
     = false
  /\ _measured_ids (self (snd (receive failing_env small_circuit fresh_world)))
     = [0]
  /\ PyStr.lines
       (quil (self (snd (receive failing_env small_circuit fresh_world))))
     = [EmptyString; "X 0"; "MEASURE 0 [0]"]%string
  /\ ~ discarded (self (snd (receive failing_env small_circuit fresh_world))).
Proof.
  repeat (split; [reflexivity |]).
  intros [Hclear _]. discriminate Hclear.
Qed.

Lemma store_at_boundary (cmd : Command) (w : World) :
  _clear (self w) = true ->
  _store cmd w = _store cmd (with_self (emptied (self w)) w).
Proof.
  intros Hclear. destruct w as [s mr rq d]. simpl in Hclear.
  unfold _store, bind, get_self. simpl self.
  destruct s as [dev n re cl ids tab q al]. simpl in Hclear. subst cl.
  reflexivity.
Qed.

(** C9 (amended): a flush that returns normally leaves the object reset,
    marked clear and without measured ids, and the next command stored
    starts from an empty program text, allocation set and probability
    table. *)
Theorem flush_resets_after_normal_return (env : Env) (w : World) :
  fst (receive env [flush_cmd] w) = Returns tt ->
  discarded (self (snd (receive env [flush_cmd] w)))
  /\ forall cmd,
       _store cmd (snd (receive env [flush_cmd] w))
       = _store cmd (with_self
                       (emptied (self (snd (receive env [flush_cmd] w))))
                       (snd (receive env [flush_cmd] w))).
Proof.
  intros Hok.
  assert (Hd : discarded (self (snd (receive env [flush_cmd] w)))).
  { revert Hok. unfold receive, for_each, bind. simpl.
    destruct (_run env w) as [[[] | e] w1]; simpl; [| discriminate].
    intros _. split; reflexivity. }
  split; [exact Hd |].
  intros cmd. apply store_at_boundary. exact (proj1 Hd).
Qed.

Lemma flush_resets_after_normal_return_witness :
  fst (receive two_shots_env [flush_cmd] loaded_world) = Returns tt
  /\ discarded (self (snd (receive two_shots_env [flush_cmd] loaded_world))).
Proof.
  split; [reflexivity |].
  apply (flush_resets_after_normal_return two_shots_env loaded_world).
  reflexivity.
Defined.

(* ------------------------------------------------------------------ *)
(** ** Counting the shots *)

Lemma dict_keys_set {V} (k : string) (v : V) (d : PyDict.dict V) :
  PyDict.keys (PyDict.set k v d)
  = if existsb (String.eqb k) (PyDict.keys d)
    then PyDict.keys d else PyDict.keys d ++ [k].
Proof.
  induction d as [| [k' v'] d IH]; simpl; [reflexivity |].
  destruct (String.eqb k k') eqn:E; simpl.
  - reflexivity.
  - rewrite IH. now destruct (existsb (String.eqb k) (PyDict.keys d)).
Qed.

Lemma existsb_eqb_in (k : string) (l : list string) :
  existsb (String.eqb k) l = true <-> In k l.
Proof.
  rewrite existsb_exists. split.
  - intros [x [Hin Heq]]. apply String.eqb_eq in Heq. now subst.
  - intros Hin. exists k. split; [exact Hin | apply String.eqb_refl].
Qed.

Lemma dict_keys_set_nodup {V} (k : string) (v : V) (d : PyDict.dict V) :
  NoDup (PyDict.keys d) -> NoDup (PyDict.keys (PyDict.set k v d)).
Proof.
  intros Hnd. rewrite dict_keys_set.
  destruct (existsb (String.eqb k) (PyDict.keys d)) eqn:E; [exact Hnd |].
  apply NoDup_app; [exact Hnd | repeat constructor; intros [] | ].
  intros x Hin [<- | []]. apply existsb_eqb_in in Hin. congruence.
Qed.

Lemma count_results_nodup (res : Res) (counts : PyDict.dict nat) :
  NoDup (PyDict.keys counts) ->
  NoDup (PyDict.keys (count_results res counts)).
Proof.
  revert counts. induction res as [| result r IH]; simpl; intros counts Hnd.
  - exact Hnd.
  - apply IH.
    destruct (PyDict.get _ counts); now apply dict_keys_set_nodup.
Qed.

Lemma count_total_set_present (k : string) (n m : nat)
    (d : PyDict.dict nat) :
  PyDict.get k d = Some n ->
  count_total (PyDict.set k m d) + n = count_total d + m.
Proof.
  unfold count_total.
  induction d as [| [k' v'] d IH]; simpl; [discriminate |].
  destruct (String.eqb k k'); simpl.
  - intros [= ->]. lia.
  - intros H. specialize (IH H). lia.
Qed.

Lemma count_total_set_absent (k : string) (m : nat) (d : PyDict.dict nat) :
  PyDict.get k d = None ->
  count_total (PyDict.set k m d) = count_total d + m.
Proof.
  unfold count_total.
  induction d as [| [k' v'] d IH]; simpl; [lia |].
  destruct (String.eqb k k'); simpl; [discriminate |].
  intros H. specialize (IH H). lia.
Qed.

(** The counts of the histogram add up to the number of shots. *)
Lemma count_results_total (res : Res) (counts : PyDict.dict nat) :
  count_total (count_results res counts)
  = count_total counts + List.length res.
Proof.
  revert counts. induction res as [| result r IH]; simpl; intros counts.
  - lia.
  - rewrite IH.
    destruct (PyDict.get _ counts) as [n |] eqn:E.
    + pose proof (count_total_set_present _ _ (n + 1) _ E). lia.
    + rewrite (count_total_set_absent _ _ _ E). lia.
Qed.

(* ------------------------------------------------------------------ *)
(** ** Strings *)

Lemma str_app_nil_r (s : string) : (s ++ EmptyString)%string = s.
Proof. induction s as [| c s IH]; simpl; [reflexivity | now rewrite IH]. Qed.

Lemma str_app_assoc (a b c : string) :
  ((a ++ b) ++ c)%string = (a ++ (b ++ c))%string.
Proof. induction a as [| x a IH]; simpl; [reflexivity | now rewrite IH]. Qed.




(* ------------------------------------------------------------------ *)
(** ** The table a run leaves and its total *)

Lemma dict_keys_app {V} (d1 d2 : PyDict.dict V) :
  PyDict.keys (d1 ++ d2) = PyDict.keys d1 ++ PyDict.keys d2.
Proof. apply map_app. Qed.







(* ------------------------------------------------------------------ *)
(** ** The total of a projected table *)












(* ------------------------------------------------------------------ *)
(** ** The stages of a run *)

Lemma append_measurements_eq (env : Env) (ids : list nat) (w : World) :
  for_each ids (append_measurement env) w
  = (match snd (resolved env ids) with
     | None => Returns tt
     | Some e => Raises e
     end,
     with_self (set_quil (quil (self w)
                          ++ PyStr.concat
                               (map fmt_MEASURE (fst (resolved env ids))))
                         (self w)) w).
Proof.
  revert w. induction ids as [| id r IH]; intros w; simpl.
  - unfold ret.
    now rewrite str_app_nil_r, set_quil_same, with_self_self.
  - unfold bind at 1. unfold append_measurement, bind, lift.
    destruct (current_mapping_lookup env id) as [loc | e]; simpl.
    + rewrite IH. simpl. rewrite set_quil_twice, str_app_assoc.
      reflexivity.
    + now rewrite str_app_nil_r, set_quil_same, with_self_self.
Qed.



Lemma mass_cons (N : Z) (item : string * nat) (items : PyDict.dict nat) :
  mass N (item :: items)
  = (inject_Z (Z.of_nat (snd item)) / inject_Z N + mass N items)%Q.
Proof. now destruct item. Qed.




Lemma run_empty (env : Env) (w : World) :
  quil (self w) = EmptyString -> _run env w = (Returns tt, w).
Proof.
  intros Hq. unfold _run, bind, get_self. now rewrite Hq.
Qed.

(** A run on a non-empty program, up to the [try] block. *)
Lemma run_eq (env : Env) (w : World) :
  quil (self w) <> EmptyString ->
  _run env w
  = match snd (resolved env (_measured_ids (self w))) with
    | Some e => (Raises e, with_self (with_measurements env (self w)) w)
    | None =>
        match _allocated_qubits (self w) with
        | [] => (Raises ValueError,
                 with_self (with_measurements env (self w)) w)
        | _ :: _ =>
            except_TypeError
              (run_try env (make_info (with_measurements env (self w))))
              run_failed_msg
              (with_self (with_measurements env (self w)) w)
        end
    end.
Proof.
  intros Hq. apply String.eqb_neq in Hq.
  unfold _run. unfold bind at 1. unfold get_self at 1. rewrite Hq.
  unfold bind at 1. rewrite append_measurements_eq.
  fold (with_measurements env (self w)).
  destruct (snd (resolved env (_measured_ids (self w)))); [reflexivity |].
  unfold bind at 1. unfold get_self at 1. rewrite self_with_self.
  unfold bind at 1.
  replace (_allocated_qubits (with_measurements env (self w)))
    with (_allocated_qubits (self w)) by reflexivity.
  destruct (_allocated_qubits (self w)); reflexivity.
Qed.



(* ------------------------------------------------------------------ *)
(** ** Sampling the outcome *)



(* ------------------------------------------------------------------ *)
(** ** Characters and lines *)

Lemma all_chars_app (p : ascii -> bool) (a b : string) :
  all_chars p (a ++ b) = all_chars p a && all_chars p b.
Proof.
  induction a as [| c a IH]; simpl; [reflexivity |].
  now rewrite IH, andb_assoc.
Qed.

Lemma all_chars_impl (p q : ascii -> bool) (s : string) :
  (forall c, p c = true -> q c = true) ->
  all_chars p s = true -> all_chars q s = true.
Proof.
  intros Hpq. induction s as [| c s IH]; simpl; [reflexivity |].
  intros H. apply andb_true_iff in H. destruct H as [Hc Hs].
  now rewrite (Hpq c Hc), IH.
Qed.

Lemma is_digit_not_nl (c : ascii) : is_digit c = true -> not_nl c = true.
Proof.
  destruct c as [[] [] [] [] [] [] [] []]; vm_compute; congruence.
Qed.

Lemma is_digit_not_space (c : ascii) :
  is_digit c = true -> not_space c = true.
Proof.
  destruct c as [[] [] [] [] [] [] [] []]; vm_compute; congruence.
Qed.

Lemma upper_ascii_not_nl (c : ascii) :
  not_nl (PyStr.upper_ascii c) = not_nl c.
Proof.
  destruct c as [[] [] [] [] [] [] [] []]; vm_compute; reflexivity.
Qed.

Lemma no_nl_upper (s : string) : no_nl (PyStr.upper s) = no_nl s.
Proof.
  unfold no_nl. induction s as [| c s IH]; simpl; [reflexivity |].
  now rewrite upper_ascii_not_nl, IH.
Qed.

Lemma no_nl_app (a b : string) : no_nl (a ++ b) = no_nl a && no_nl b.
Proof. apply all_chars_app. Qed.

Lemma string_of_uint_digits (d : Decimal.uint) :
  all_chars is_digit (NilEmpty.string_of_uint d) = true.
Proof. induction d; simpl; auto. Qed.

Lemma to_uint_nonnil (n : nat) : Nat.to_uint n <> Decimal.Nil.
Proof.
  rewrite <- (DecimalNat.Unsigned.of_to n) at 1.
  rewrite DecimalNat.Unsigned.to_of. apply DecimalFacts.unorm_nonnil.
Qed.

Lemma str_nat_digits (n : nat) : all_chars is_digit (PyStr.str_nat n) = true.
Proof. apply string_of_uint_digits. Qed.

Lemma str_nat_nonempty (n : nat) : PyStr.str_nat n <> EmptyString.
Proof.
  unfold PyStr.str_nat. pose proof (to_uint_nonnil n) as H.
  destruct (Nat.to_uint n); simpl; congruence.
Qed.

Lemma no_nl_str_nat (n : nat) : no_nl (PyStr.str_nat n) = true.
Proof.
  apply (all_chars_impl is_digit); [apply is_digit_not_nl |].
  apply str_nat_digits.
Qed.

Lemma last_nonspace_all (s : string) :
  s <> EmptyString -> all_chars not_space s = true -> last_nonspace s = true.
Proof.
  induction s as [| c s IH]; [congruence |].
  intros _ H. simpl in H. apply andb_true_iff in H. destruct H as [Hc Hs].
  destruct s as [| c' s]; [exact Hc |].
  change (last_nonspace (String c' s) = true). apply IH; [discriminate |].
  exact Hs.
Qed.

Lemma last_nonspace_str_nat (n : nat) : last_nonspace (PyStr.str_nat n) = true.
Proof.
  apply last_nonspace_all; [apply str_nat_nonempty |].
  apply (all_chars_impl is_digit); [apply is_digit_not_space |].
  apply str_nat_digits.
Qed.

Lemma last_nonspace_app (a b : string) :
  b <> EmptyString -> last_nonspace (a ++ b) = last_nonspace b.
Proof.
  intros Hb. induction a as [| c a IH]; [reflexivity |].
  simpl. destruct (a ++ b)%string eqn:E.
  - destruct a; [simpl in E; congruence | discriminate E].
  - exact IH.
Qed.







Lemma text_of_empty (lines : list string) :
  text_of lines = EmptyString -> lines = [].
Proof. destruct lines; [reflexivity | discriminate]. Qed.

Lemma last_nonspace_nonempty (s : string) :
  last_nonspace s = true -> s <> EmptyString.
Proof. destruct s; [discriminate | discriminate]. Qed.

Lemma last_nonspace_suffix (a b : string) :
  last_nonspace b = true -> last_nonspace (a ++ b) = true.
Proof.
  intros Hb. rewrite last_nonspace_app; [exact Hb |].
  now apply last_nonspace_nonempty.
Qed.





(* ------------------------------------------------------------------ *)
(** ** The instructions [_store] and [_run] write *)

Lemma replace_PH_other (c : ascii) (s : string) :
  c <> "P"%char ->
  PyStr.replace_PH (String c s) = String c (PyStr.replace_PH s).
Proof.
  intros Hc. destruct c as [[] [] [] [] [] [] [] []];
    try reflexivity; now elim Hc.
Qed.

Lemma replace_PH_P_other (d : ascii) (s : string) :
  d <> "H"%char ->
  PyStr.replace_PH (String "P" (String d s))
  = String "P" (PyStr.replace_PH (String d s)).
Proof.
  intros Hd. destruct d as [[] [] [] [] [] [] [] []];
    try reflexivity; now elim Hd.
Qed.

Lemma replace_PH_PH_other (e : ascii) (s : string) :
  e <> "("%char ->
  PyStr.replace_PH (String "P" (String "H" (String e s)))
  = String "P" (PyStr.replace_PH (String "H" (String e s))).
Proof.
  intros He. destruct e as [[] [] [] [] [] [] [] []];
    try reflexivity; now elim He.
Qed.

Lemma no_nl_replace_PH_bounded (n : nat) (s : string) :
  String.length s <= n -> no_nl (PyStr.replace_PH s) = no_nl s.
Proof.
  revert s. induction n as [| n IH]; intros s Hlen.
  - destruct s; [reflexivity | simpl in Hlen; lia].
  - destruct s as [| c s]; [reflexivity |].
    simpl in Hlen.
    destruct (ascii_dec c "P") as [-> | Hc].
    + destruct s as [| d s]; [reflexivity |].
      destruct (ascii_dec d "H") as [-> | Hd].
      * destruct s as [| e s]; [reflexivity |].
        destruct (ascii_dec e "(") as [-> | He].
        -- change (PyStr.replace_PH (String "P" (String "H" (String "(" s))))
             with ("PHASE(" ++ PyStr.replace_PH s)%string.
           rewrite no_nl_app. rewrite IH by (simpl in Hlen; lia).
           reflexivity.
        -- rewrite (replace_PH_PH_other e s He).
           change (no_nl (String "P" ?x)) with (no_nl x).
           unfold no_nl at 1. cbn [all_chars]. fold (no_nl (PyStr.replace_PH (String "H" (String e s)))).
           rewrite IH by (simpl in *; lia). reflexivity.
      * rewrite (replace_PH_P_other d s Hd).
        unfold no_nl at 1. cbn [all_chars].
        fold (no_nl (PyStr.replace_PH (String d s))).
        rewrite IH by (simpl in *; lia). reflexivity.
    + rewrite (replace_PH_other c s Hc).
      unfold no_nl. cbn [all_chars]. fold (no_nl (PyStr.replace_PH s)).
      fold (no_nl s). rewrite IH by lia. reflexivity.
Qed.

Lemma no_nl_replace_PH (s : string) :
  no_nl (PyStr.replace_PH s) = no_nl s.
Proof. apply (no_nl_replace_PH_bounded (String.length s)). lia. Qed.

Lemma rotation_name_ok (g : Ops.Gate) :
  Ops.is_rotation g = true -> plain_angle g = true ->
  name_ok (rotation_name g).
Proof.
  unfold name_ok, rotation_name.
  destruct g; try discriminate; intros _ Hangle; simpl in Hangle;
    (split; [| split; reflexivity]);
    rewrite no_nl_replace_PH, no_nl_upper; cbn [Ops.str];
    rewrite !no_nl_app, Hangle; reflexivity.
Qed.

Lemma plain_name_ok (g : Ops.Gate) :
  In g [Ops.X; Ops.Y; Ops.Z; Ops.H; Ops.T; Ops.S; Ops.Tdag; Ops.Sdag] ->
  name_ok (plain_name g).
Proof.
  intros Hin. simpl in Hin.
  repeat (destruct Hin as [<- | Hin]; [repeat split |]).
  contradiction.
Qed.

Ltac last_is_nat :=
  repeat apply last_nonspace_suffix; apply last_nonspace_str_nat.

Lemma gate_line_CNOT (c q : nat) :
  exists line, fmt_CNOT c q = String PyStr.nl line /\ gate_line line.
Proof.
  eexists. split; [reflexivity |]. repeat split.
  - rewrite !no_nl_app, !no_nl_str_nat. reflexivity.
  - last_is_nat.
Qed.

Lemma gate_line_CCNOT (c c2 q : nat) :
  exists line, fmt_CCNOT c c2 q = String PyStr.nl line /\ gate_line line.
Proof.
  eexists. split; [reflexivity |]. repeat split.
  - rewrite !no_nl_app, !no_nl_str_nat. reflexivity.
  - last_is_nat.
Qed.

Lemma gate_line_CONTROLLED (g : string) (c q : nat) :
  name_ok g ->
  exists line, fmt_CONTROLLED g c q = String PyStr.nl line /\ gate_line line.
Proof.
  intros (Hnl & _ & _). eexists. split; [reflexivity |]. repeat split.
  - rewrite !no_nl_app, !no_nl_str_nat, Hnl. reflexivity.
  - last_is_nat.
Qed.

Lemma prefix_cons (a b : ascii) (s1 s2 : string) :
  String.prefix (String a s1) (String b s2)
  = if ascii_dec a b then String.prefix s1 s2 else false.
Proof. reflexivity. Qed.

Lemma prefix_nil (s : string) : String.prefix EmptyString s = true.
Proof. now destruct s. Qed.


Lemma gate_line_gate (g : string) (q : nat) :
  name_ok g ->
  exists line, fmt_gate g q = String PyStr.nl line /\ gate_line line.
Proof.
  intros (Hnl & Hhead & Hm). eexists. split; [reflexivity |].
  destruct g as [| c g]; [discriminate Hhead |]. repeat split.
  - rewrite !no_nl_app, !no_nl_str_nat, Hnl. reflexivity.
  - exact Hhead.
  - last_is_nat.
  - unfold is_measurement.
    change ((String c g ++ " " ++ PyStr.str_nat q)%string)
      with (String c (g ++ " " ++ PyStr.str_nat q)).
    rewrite prefix_cons. rewrite prefix_cons in Hm.
    destruct (ascii_dec "M" c); [| reflexivity].
    rewrite prefix_nil in Hm. discriminate Hm.
Qed.


(* ------------------------------------------------------------------ *)
(** ** What storing a command does to the program text *)

Lemma begin_circuit_clear (s : Backend) : _clear (begin_circuit s) = false.
Proof. unfold begin_circuit. destruct (_clear s) eqn:E; [reflexivity | exact E]. Qed.

Lemma store_begin (cmd : Command) (w : World) :
  _store cmd w = _store cmd (with_self (begin_circuit (self w)) w).
Proof.
  destruct w as [s mr rq d]. unfold _store, bind, get_self, begin_circuit.
  simpl self. destruct s as [dev n re cl ids tab q al].
  destruct cl; reflexivity.
Qed.





(* ------------------------------------------------------------------ *)
(** ** What a run leaves of the program text and of the requests *)

Lemma sample_frame (P : Q) (counts : PyDict.dict nat) (p_sum : Q)
    (measured : string) (w : World) :
  requests (snd (sample P counts p_sum measured w)) = requests w
  /\ quil (self (snd (sample P counts p_sum measured w))) = quil (self w).
Proof.
  revert p_sum measured w.
  induction counts as [| [state n] r IH]; intros p_sum measured w; simpl.
  - split; reflexivity.
  - unfold bind at 1 3. unfold get_self. cbn iota beta.
    destruct (_num_runs (self w) =? 0)%Z; [split; reflexivity |].
    unfold bind, modify. cbn iota beta.
    match goal with
    | |- context [sample P r ?p ?m ?w0] =>
        destruct (IH p m w0) as [Hr Hq]; rewrite Hr, Hq
    end.
    split; reflexivity.
Qed.

Lemma register_frame (env : Env) (measured : string) (ids : list nat)
    (w : World) :
  requests (snd (register env measured ids w)) = requests w
  /\ quil (self (snd (register env measured ids w))) = quil (self w).
Proof.
  unfold register. revert w. induction ids as [| ID r IH]; intros w; simpl.
  - split; reflexivity.
  - unfold bind at 1 3. unfold bind at 1 3. unfold lift.
    destruct (_logical_to_physical env ID) as [location | e];
      [| split; reflexivity].
    destruct (String.get location measured) as [c |]; [| split; reflexivity].
    destruct (PyStr.int_of_char c) as [bit |]; [| split; reflexivity].
    unfold set_measurement_result.
    match goal with
    | |- context [for_each r ?b ?w0] =>
        destruct (IH w0) as [Hr Hq]
    end.
    split; [exact Hr | exact Hq].
Qed.

Lemma run_try_frame (env : Env) (info : Info) (w w' : World)
    (o : Outcome unit) :
  run_try env info w = (o, w') ->
  requests w'
  = requests w
    ++ [match _retrieve_execution (self w) with
        | None => Send info
        | Some jobid => Retrieve (device (self w)) jobid
        end]
  /\ quil (self w') = quil (self w).
Proof.
  intros H. unfold run_try in H. unfold bind at 1 in H.
  unfold get_self at 1 in H. unfold bind at 1 in H.
  assert (Hcall :
            match _retrieve_execution (self w) with
            | None => call_send env info
            | Some jobid => call_retrieve env (device (self w)) jobid
            end w
            = (match _retrieve_execution (self w) with
               | None => send env info
               | Some jobid => retrieve env (device (self w)) jobid
               end,
               mkWorld (self w) (measurement_results w)
                       (requests w
                        ++ [match _retrieve_execution (self w) with
                            | None => Send info
                            | Some jobid => Retrieve (device (self w)) jobid
                            end]) (draws w)))
    by now destruct (_retrieve_execution (self w)).
  rewrite Hcall in H. clear Hcall.
  destruct (match _retrieve_execution (self w) with
            | None => send env info
            | Some jobid => retrieve env (device (self w)) jobid
            end) as [res | e];
    [| injection H as _ <-; split; reflexivity].
  unfold bind at 1 in H. unfold random_random in H. cbn iota beta in H.
  unfold bind at 1 in H.
  match type of H with
  | context [sample ?P ?c ?p ?m ?w0] =>
      destruct (sample_frame P c p m w0) as [Hr1 Hq1];
      destruct (sample P c p m w0) as [[measured | e] w3]
  end; [| injection H as _ <-; split; [exact Hr1 | exact Hq1]].
  unfold bind at 1 in H. unfold get_self at 1 in H. cbn iota beta in H.
  unfold bind at 1 in H.
  match type of H with
  | context [register ?e ?m ?ids ?w0] =>
      destruct (register_frame e m ids w0) as [Hr2 Hq2];
      destruct (register e m ids w0) as [[[] | e'] w4]
  end; simpl in *; injection H as _ <-; simpl; split; congruence.
Qed.


(* ------------------------------------------------------------------ *)
(** ** The order of the submitted program *)








(* ------------------------------------------------------------------ *)
(** ** Storing: what every command leaves alone *)

Lemma begin_circuit_fields (s : Backend) :
  device (begin_circuit s) = device s
  /\ _num_runs (begin_circuit s) = _num_runs s
  /\ _retrieve_execution (begin_circuit s) = _retrieve_execution s
  /\ _measured_ids (begin_circuit s) = _measured_ids s.
Proof. unfold begin_circuit. destruct (_clear s); repeat split. Qed.

Ltac store_cases g qs cs ts :=
  destruct g;
  destruct cs as [| ?c1 [| ?c2 [| ?c3 cs]]];
  destruct qs as [| [| ?q ?r] qs];
  unfold _store, bind, get_self;
  cbn -[fmt_CNOT fmt_CCNOT fmt_CONTROLLED fmt_gate String.append text_of
        rotation_name plain_name PyStr.upper PyStr.replace_PH
        PyStr.str_nat find_logical_id PyDict.get].

(** Whatever the command and however storing it ends, no request is made,
    no random value is drawn, no measurement result is delivered and the
    settings of the object stay; the object is no longer marked clear. *)
Lemma store_frame_begun (cmd : Command) (w : World) :
  _clear (self w) = false ->
  requests (snd (_store cmd w)) = requests w
  /\ draws (snd (_store cmd w)) = draws w
  /\ measurement_results (snd (_store cmd w)) = measurement_results w
  /\ device (self (snd (_store cmd w))) = device (self w)
  /\ _num_runs (self (snd (_store cmd w))) = _num_runs (self w)
  /\ _retrieve_execution (self (snd (_store cmd w)))
     = _retrieve_execution (self w)
  /\ _probabilities (self (snd (_store cmd w))) = _probabilities (self w)
  /\ _clear (self (snd (_store cmd w))) = false.
Proof.
  intros Hclear. destruct cmd as [g qs cs ts].
  destruct (Ops.Gate_eq_dec g Ops.Measure) as [-> | Hg].
  { rewrite store_Measure. unfold begin_circuit. rewrite Hclear.
    destruct qs as [| [| q [| q' r]] [| r' qs]];
      try destruct (find_logical_id ts); simpl;
      rewrite ?Hclear; repeat split. }
  destruct w as [s mr rq d]. destruct s as [dev n re cl ids tab q0 al].
  simpl in Hclear. subst cl.
  store_cases g qs cs ts; try (now elim Hg); repeat split.
Qed.

Lemma store_frame (cmd : Command) (w : World) :
  requests (snd (_store cmd w)) = requests w
  /\ draws (snd (_store cmd w)) = draws w
  /\ measurement_results (snd (_store cmd w)) = measurement_results w
  /\ device (self (snd (_store cmd w))) = device (self w)
  /\ _num_runs (self (snd (_store cmd w))) = _num_runs (self w)
  /\ _retrieve_execution (self (snd (_store cmd w)))
     = _retrieve_execution (self w)
  /\ _probabilities (self (snd (_store cmd w)))
     = _probabilities (begin_circuit (self w))
  /\ _clear (self (snd (_store cmd w))) = false.
Proof.
  rewrite store_begin.
  destruct (store_frame_begun cmd (with_self (begin_circuit (self w)) w)
              (begin_circuit_clear (self w)))
    as (H1 & H2 & H3 & H4 & H5 & H6 & H7 & H8).
  destruct (begin_circuit_fields (self w)) as (F1 & F2 & F3 & _).
  rewrite H1, H2, H3, H4, H5, H6, H7, H8. simpl.
  rewrite F1, F2, F3. repeat split.
Qed.

(** X1: storing a command, whatever the command and however it ends, makes
    no request to the client, draws no random value and delivers no
    measurement result. *)
Theorem store_has_no_outside_effect (cmd : Command) (w : World) :
  requests (snd (_store cmd w)) = requests w
  /\ draws (snd (_store cmd w)) = draws w
  /\ measurement_results (snd (_store cmd w)) = measurement_results w.
Proof.
  destruct (store_frame cmd w) as (H1 & H2 & H3 & _). auto.
Qed.

(** X2: the first command stored at a circuit boundary (object marked
    clear) empties the probability table, so that [get_probabilities]
    raises the no-data error from then on, whatever that command is and
    even when storing it fails; a command stored later leaves the table as
    it is. *)
Theorem store_discards_table_at_boundary_only (cmd : Command) (w : World) :
  (_clear (self w) = true ->
   forall env qureg,
     get_probabilities env (self (snd (_store cmd w))) qureg
     = Raises (RuntimeError "Please, run the circuit first!"))
  /\ (_clear (self w) = false ->
      _probabilities (self (snd (_store cmd w))) = _probabilities (self w)).
Proof.
  destruct (store_frame cmd w) as (_ & _ & _ & _ & _ & _ & Htab & _).
  unfold begin_circuit in Htab. split; intros Hclear; rewrite Hclear in Htab.
  - intros env qureg. unfold get_probabilities. now rewrite Htab.
  - exact Htab.
Qed.

Lemma store_discards_table_at_boundary_only_witness :
  get_probabilities env_identity3
    (self (snd (_store (x_cmd 0) boundary_world))) [0]
  = Raises (RuntimeError "Please, run the circuit first!")
  /\ _probabilities (self (snd (_store (x_cmd 0) running_world)))
     = example_table.
Proof.
  split.
  - apply (proj1 (store_discards_table_at_boundary_only
                    (x_cmd 0) boundary_world)).
    reflexivity.
  - apply (proj2 (store_discards_table_at_boundary_only
                    (x_cmd 0) running_world)).
    reflexivity.
Defined.

(* ------------------------------------------------------------------ *)
(** ** Storing: rejected commands *)

Lemma store_rejected_begun (cmd : Command) (w : World) (e : Exn) :
  _clear (self w) = false ->
  fst (_store cmd w) = Raises e -> snd (_store cmd w) = w.
Proof.
  intros Hclear. destruct cmd as [g qs cs ts].
  destruct (Ops.Gate_eq_dec g Ops.Measure) as [-> | Hg].
  { rewrite store_Measure. unfold begin_circuit. rewrite Hclear.
    destruct qs as [| [| q [| q' r]] [| r' qs]];
      try destruct (find_logical_id ts); simpl;
      try discriminate; intros _; apply with_self_self. }
  destruct w as [s mr rq d]. destruct s as [dev n re cl ids tab q0 al].
  simpl in Hclear. subst cl.
  store_cases g qs cs ts; try (now elim Hg); try discriminate;
    intros _; reflexivity.
Qed.

(** X3: a command whose storing raises leaves the world as the clearing at
    the circuit boundary left it: nothing is appended to the program text,
    to the measured ids or to the allocation set. *)
Theorem store_rejected_leaves_object (cmd : Command) (w : World) (e : Exn) :
  fst (_store cmd w) = Raises e ->
  snd (_store cmd w) = with_self (begin_circuit (self w)) w.
Proof.
  rewrite store_begin. apply store_rejected_begun.
  apply begin_circuit_clear.
Qed.

Lemma store_rejected_leaves_object_witness :
  fst (_store (mkCommand Ops.Y [[0]] [1; 2] []) running_world)
  = Raises AssertionError
  /\ snd (_store (mkCommand Ops.Y [[0]] [1; 2] []) running_world)
     = running_world.
Proof.
  split; [reflexivity |].
  apply (store_rejected_leaves_object
           (mkCommand Ops.Y [[0]] [1; 2] []) running_world AssertionError).
  reflexivity.
Defined.

Lemma store_rejects_control_counts_begun (cmd : Command) (w : World) :
  _clear (self w) = false ->
  bookkeeping (gate cmd) = false ->
  3 <= get_control_count cmd
  \/ (2 <= get_control_count cmd /\ gate cmd <> Ops.NOT) ->
  fst (_store cmd w) = Raises AssertionError.
Proof.
  intros Hclear Hbook Hcount.
  destruct cmd as [g qs cs ts]. unfold get_control_count in Hcount.
  simpl in Hcount, Hbook.
  destruct w as [s mr rq d]. destruct s as [dev n re cl ids tab q0 al].
  simpl in Hclear. subst cl.
  destruct cs as [| c1 [| c2 cs]];
    [simpl in Hcount; lia | simpl in Hcount; lia |].
  assert (Hc : cs <> [] \/ g <> Ops.NOT).
  { destruct Hcount as [H | [_ H]]; [left | now right].
    destruct cs; [simpl in H; lia | discriminate]. }
  clear Hcount.
  destruct g; try discriminate Hbook;
    destruct cs as [| c3 cs];
    destruct qs as [| [| q r] qs];
    try reflexivity;
    destruct Hc as [Hc | Hc]; exfalso; apply Hc; reflexivity.
Qed.

(** X4: a gate that is neither Allocate, Deallocate nor Measure is rejected
    with an assertion error when it has three or more controls, or two or
    more and is not NOT; this holds also for gates the availability
    predicate admits with any number of controls (rotation and phase gates,
    Y, Z, H, T, S, Tdag, Sdag). *)
Theorem store_rejects_control_counts (cmd : Command) (w : World) :
  bookkeeping (gate cmd) = false ->
  3 <= get_control_count cmd
  \/ (2 <= get_control_count cmd /\ gate cmd <> Ops.NOT) ->
  fst (_store cmd w) = Raises AssertionError
  /\ (Ops.is_rotation (gate cmd) = true
      \/ In (gate cmd) [Ops.Y; Ops.Z; Ops.H; Ops.T; Ops.S; Ops.Tdag;
                        Ops.Sdag] ->
      is_available cmd = true).
Proof.
  intros Hbook Hcount. split.
  - rewrite store_begin. apply store_rejects_control_counts_begun;
      [apply begin_circuit_clear | exact Hbook | exact Hcount].
  - destruct cmd as [g qs cs ts]. simpl gate.
    intros [Hrot | Hin].
    + destruct g; try discriminate Hrot; reflexivity.
    + simpl in Hin.
      repeat (destruct Hin as [<- | Hin]; [reflexivity |]). contradiction.
Qed.

Lemma store_rejects_control_counts_witness :
  fst (_store (mkCommand (Ops.Rz "1.5") [[0]] [1; 2] []) fresh_world)
  = Raises AssertionError
  /\ is_available (mkCommand (Ops.Rz "1.5") [[0]] [1; 2] []) = true.
Proof.
  destruct (store_rejects_control_counts
              (mkCommand (Ops.Rz "1.5") [[0]] [1; 2] []) fresh_world)
    as [Hraise Hav].
  - reflexivity.
  - right. split; [unfold get_control_count; simpl; lia | discriminate].
  - split; [exact Hraise | apply Hav; now left].
Defined.

(* ------------------------------------------------------------------ *)
(** ** Storing: gates, measurements and allocations *)

Ltac the_line H :=
  let line := fresh "line" in
  let Heq := fresh "Heq" in
  let Hline := fresh "Hline" in
  destruct H as (line & Heq & Hline);
  exists line; rewrite <- Heq;
  split; [reflexivity |];
  split; [exact Hline |];
  split; reflexivity.

Lemma store_gate_begun (cmd : Command) (w : World) :
  _clear (self w) = false ->
  accepted cmd -> bookkeeping (gate cmd) = false ->
  fst (_store cmd w) = Returns tt ->
  exists line,
    quil (self (snd (_store cmd w)))
    = (quil (self w) ++ String PyStr.nl line)%string
    /\ gate_line line
    /\ _measured_ids (self (snd (_store cmd w))) = _measured_ids (self w)
    /\ _allocated_qubits (self (snd (_store cmd w)))
       = _allocated_qubits (self w).
Proof.
  intros Hclear [Hav Hangle] Hbook.
  destruct cmd as [g qs cs ts]. simpl gate in Hangle, Hbook.
  destruct w as [s mr rq d]. destruct s as [dev n re cl ids tab q0 al].
  simpl in Hclear. subst cl.
  assert (Hname :
            (Ops.is_rotation g = true -> name_ok (rotation_name g))
            /\ (In g [Ops.X; Ops.Y; Ops.Z; Ops.H; Ops.T; Ops.S; Ops.Tdag;
                      Ops.Sdag] -> name_ok (plain_name g))).
  { split; [intros Hr; now apply rotation_name_ok | apply plain_name_ok]. }
  destruct Hname as [Hrot Hplain].
  destruct g; try discriminate Hav; try discriminate Hbook;
    try (specialize (Hrot eq_refl));
    try (assert (Hp := Hplain ltac:(simpl; tauto)));
    clear Hplain;
    destruct cs as [| c1 [| c2 [| c3 cs]]];
    destruct qs as [| [| q r] qs];
    unfold _store, bind, get_self;
    cbn -[fmt_CNOT fmt_CCNOT fmt_CONTROLLED fmt_gate String.append text_of
          rotation_name plain_name PyStr.upper PyStr.replace_PH
          PyStr.str_nat find_logical_id];
    try discriminate; intros _.
  all: try (the_line (gate_line_CNOT c1 q)).
  all: try (the_line (gate_line_CCNOT c1 c2 q)).
  all: try (the_line (gate_line_gate _ q Hp)).
  all: try (the_line (gate_line_CONTROLLED _ c1 q Hp)).
  all: try (the_line (gate_line_gate _ q Hrot)).
  all: try (the_line (gate_line_CONTROLLED _ c1 q Hrot)).
Qed.

(** X5: an accepted gate command (not Allocate, Deallocate or Measure) that
    is stored without error appends exactly one line to the program text, a
    line that is no measurement instruction, and changes neither the
    measured ids nor the allocation set. *)
Theorem store_gate_appends_one_line (cmd : Command) (w : World) :
  accepted cmd -> bookkeeping (gate cmd) = false ->
  fst (_store cmd w) = Returns tt ->
  exists line,
    quil (self (snd (_store cmd w)))
    = (quil (begin_circuit (self w)) ++ String PyStr.nl line)%string
    /\ gate_line line
    /\ _measured_ids (self (snd (_store cmd w))) = _measured_ids (self w)
    /\ _allocated_qubits (self (snd (_store cmd w)))
       = _allocated_qubits (begin_circuit (self w)).
Proof.
  intros Hacc Hbook. rewrite store_begin. intros Hok.
  destruct (store_gate_begun cmd (with_self (begin_circuit (self w)) w)
              (begin_circuit_clear (self w)) Hacc Hbook Hok)
    as (line & H1 & H2 & H3 & H4).
  exists line. simpl in H1, H3, H4.
  destruct (begin_circuit_fields (self w)) as (_ & _ & _ & F).
  rewrite F in H3. auto.
Qed.

Lemma store_gate_appends_one_line_witness :
  PyStr.lines
    (quil (self (snd (_store (mkCommand (Ops.Ph "0.25") [[3]] [2] [])
                             fresh_world))))
  = [EmptyString; "CONTROLLED PHASE(0.25) 2 3"]
  /\ exists line,
       quil (self (snd (_store (mkCommand (Ops.Ph "0.25") [[3]] [2] [])
                               fresh_world)))
       = String PyStr.nl line
       /\ is_measurement line = false.
Proof.
  split; [reflexivity |].
  destruct (store_gate_appends_one_line
              (mkCommand (Ops.Ph "0.25") [[3]] [2] []) fresh_world)
    as (line & Hq & (_ & _ & _ & Hm) & _).
  - split; reflexivity.
  - reflexivity.
  - reflexivity.
  - exists line. split; [exact Hq | exact Hm].
Defined.

Lemma store_measured_ids_begun (cmd : Command) (w : World) :
  _clear (self w) = false ->
  fst (_store cmd w) = Returns tt ->
  _measured_ids (self (snd (_store cmd w)))
  = _measured_ids (self w) ++ measured_id_of cmd.
Proof.
  intros Hclear. destruct cmd as [g qs cs ts].
  destruct (Ops.Gate_eq_dec g Ops.Measure) as [-> | Hg].
  { rewrite store_Measure. unfold begin_circuit, measured_id_of.
    rewrite Hclear. simpl.
    destruct qs as [| [| q [| q' r]] [| r' qs]];
      try destruct (find_logical_id ts); simpl;
      try discriminate; reflexivity. }
  destruct w as [s mr rq d]. destruct s as [dev n re cl ids tab q0 al].
  simpl in Hclear. subst cl.
  store_cases g qs cs ts; try (now elim Hg); try discriminate;
    intros _; unfold measured_id_of; simpl;
    now rewrite List.app_nil_r.
Qed.

Lemma store_measured_ids (cmd : Command) (w : World) :
  fst (_store cmd w) = Returns tt ->
  _measured_ids (self (snd (_store cmd w)))
  = _measured_ids (self w) ++ measured_id_of cmd.
Proof.
  rewrite store_begin. intros Hok.
  rewrite (store_measured_ids_begun
             cmd (with_self (begin_circuit (self w)) w)
             (begin_circuit_clear (self w)) Hok).
  simpl. now rewrite (proj2 (proj2 (proj2 (begin_circuit_fields (self w))))).
Qed.

(** X6: between two flushes the measured ids accumulate in the order of
    arrival: when a list of commands without a flush is received without
    error, the measured ids are the former ones followed by the logical ids
    of the Measure commands, in the order of the commands. *)
Theorem measured_ids_accumulate_in_order (env : Env)
    (cmds : list Command) (w w' : World) :
  Forall (fun cmd => gate cmd <> Ops.FlushGate) cmds ->
  receive env cmds w = (Returns tt, w') ->
  _measured_ids (self w')
  = _measured_ids (self w) ++ flat_map measured_id_of cmds.
Proof.
  unfold receive. intros Hcmds. revert w.
  induction Hcmds as [| cmd cmds Hcmd _ IH]; intros w Hrun.
  - injection Hrun as <-. simpl. now rewrite List.app_nil_r.
  - cbn [for_each] in Hrun. unfold bind at 1 in Hrun.
    assert (Hf : Ops.eqb (gate cmd) Ops.FlushGate = false).
    { destruct (Ops.eqb (gate cmd) Ops.FlushGate) eqn:E; [| reflexivity].
      apply eqb_true_iff in E. now elim Hcmd. }
    rewrite Hf in Hrun. cbn [negb] in Hrun.
    pose proof (store_measured_ids cmd w) as Hstep.
    destruct (_store cmd w) as [[[] | e] w1]; [| discriminate Hrun].
    rewrite (IH w1 Hrun). simpl in Hstep. rewrite (Hstep eq_refl).
    simpl. now rewrite List.app_assoc.
Qed.

Lemma measured_ids_accumulate_in_order_witness :
  _measured_ids
    (self (snd (receive no_client
                  [allocate_cmd 0; measure_cmd 0 5; x_cmd 0; measure_cmd 1 3]
                  fresh_world)))
  = [5; 3].
Proof.
  apply (measured_ids_accumulate_in_order
           no_client
           [allocate_cmd 0; measure_cmd 0 5; x_cmd 0; measure_cmd 1 3]
           fresh_world).
  - repeat (constructor; [discriminate |]). constructor.
  - reflexivity.
Defined.

Lemma store_bookkeeping_text_begun (cmd : Command) (w : World) :
  _clear (self w) = false ->
  bookkeeping (gate cmd) = true ->
  quil (self (snd (_store cmd w))) = quil (self w).
Proof.
  intros Hclear Hbook. destruct cmd as [g qs cs ts]. simpl in Hbook.
  destruct (Ops.Gate_eq_dec g Ops.Measure) as [-> | Hg].
  { rewrite store_Measure. unfold begin_circuit. rewrite Hclear.
    destruct qs as [| [| q [| q' r]] [| r' qs]];
      try destruct (find_logical_id ts); simpl; rewrite ?Hclear;
      reflexivity. }
  destruct w as [s mr rq d]. destruct s as [dev n re cl ids tab q0 al].
  simpl in Hclear. subst cl.
  destruct g; try discriminate Hbook; try (now elim Hg);
    destruct qs as [| [| q r] qs]; reflexivity.
Qed.

Lemma store_bookkeeping_text (cmd : Command) (w : World) :
  bookkeeping (gate cmd) = true ->
  quil (self (snd (_store cmd w))) = quil (begin_circuit (self w)).
Proof.
  intros Hbook. rewrite store_begin.
  apply (store_bookkeeping_text_begun
           cmd (with_self (begin_circuit (self w)) w)
           (begin_circuit_clear (self w)) Hbook).
Qed.

Lemma begin_circuit_empty_text (s : Backend) :
  quil s = EmptyString -> quil (begin_circuit s) = EmptyString.
Proof. unfold begin_circuit. now destruct (_clear s). Qed.

Lemma for_each_cons {A} (x : A) (r : list A) (body : A -> M unit)
    (w : World) :
  for_each (x :: r) body w
  = match body x w with
    | (Returns _, w') => for_each r body w'
    | (Raises e, w') => (Raises e, w')
    end.
Proof. reflexivity. Qed.

Lemma no_text_step (env : Env) (cmd : Command) (w : World) :
  writes_no_text cmd ->
  quil (self w) = EmptyString ->
  requests
    (snd ((if negb (Ops.eqb (gate cmd) Ops.FlushGate)
           then _store cmd else _run env ;; _reset) w)) = requests w
  /\ draws
       (snd ((if negb (Ops.eqb (gate cmd) Ops.FlushGate)
              then _store cmd else _run env ;; _reset) w)) = draws w
  /\ measurement_results
       (snd ((if negb (Ops.eqb (gate cmd) Ops.FlushGate)
              then _store cmd else _run env ;; _reset) w))
     = measurement_results w
  /\ quil
       (self (snd ((if negb (Ops.eqb (gate cmd) Ops.FlushGate)
                    then _store cmd else _run env ;; _reset) w)))
     = EmptyString.
Proof.
  intros Hcmd Hq.
  destruct (Ops.eqb (gate cmd) Ops.FlushGate) eqn:Hf; cbn [negb].
  - unfold bind. rewrite (run_empty env w Hq). simpl. auto.
  - destruct Hcmd as [Hflush | Hbook].
    { rewrite Hflush in Hf. discriminate Hf. }
    destruct (store_frame cmd w) as (F1 & F2 & F3 & _).
    pose proof (store_bookkeeping_text cmd w Hbook) as Hq1.
    rewrite (begin_circuit_empty_text _ Hq) in Hq1. auto.
Qed.

(** X7: a stream of commands that only allocates, deallocates, measures and
    flushes submits nothing: starting without program text, no request is
    made, no random value is drawn and no measurement result is delivered,
    whatever the mapper and the client are, and the text stays empty. *)
Theorem circuits_without_gates_submit_nothing (env : Env)
    (cmds : list Command) (w : World) :
  Forall writes_no_text cmds ->
  quil (self w) = EmptyString ->
  requests (snd (receive env cmds w)) = requests w
  /\ draws (snd (receive env cmds w)) = draws w
  /\ measurement_results (snd (receive env cmds w)) = measurement_results w
  /\ quil (self (snd (receive env cmds w))) = EmptyString.
Proof.
  unfold receive. intros Hcmds. revert w.
  induction Hcmds as [| cmd cmds Hcmd _ IH]; intros w Hq.
  - simpl. auto.
  - rewrite for_each_cons. cbv beta.
    destruct (no_text_step env cmd w Hcmd Hq) as (S1 & S2 & S3 & S4).
    destruct ((if negb (Ops.eqb (gate cmd) Ops.FlushGate)
               then _store cmd else _run env ;; _reset) w)
      as [[[] | e] w1]; simpl in S1, S2, S3, S4.
    + destruct (IH w1 S4) as (H1 & H2 & H3 & H4).
      repeat split; congruence.
    + simpl. repeat split; congruence.
Qed.

Lemma circuits_without_gates_submit_nothing_witness :
  requests
    (snd (receive example_env
            [flush_cmd; allocate_cmd 0; measure_cmd 0 0; flush_cmd;
             mkCommand Ops.Deallocate [[0]] [] []; flush_cmd]
            fresh_world)) = [].
Proof.
  apply (circuits_without_gates_submit_nothing
           example_env
           [flush_cmd; allocate_cmd 0; measure_cmd 0 0; flush_cmd;
            mkCommand Ops.Deallocate [[0]] [] []; flush_cmd]
           fresh_world).
  - repeat (constructor; [first [now left | now right] |]). constructor.
  - reflexivity.
Defined.

Lemma in_set_add (x q : nat) (l : list nat) :
  In x l -> In x (set_add q l).
Proof.
  unfold set_add. intros H. destruct (existsb (Nat.eqb q) l); [exact H |].
  apply in_or_app. now left.
Qed.

Lemma in_set_add_same (q : nat) (l : list nat) : In q (set_add q l).
Proof.
  unfold set_add. destruct (existsb (Nat.eqb q) l) eqn:E.
  - apply existsb_exists in E. destruct E as [y [Hy Heq]].
    apply Nat.eqb_eq in Heq. now subst.
  - apply in_or_app. right. now left.
Qed.

Lemma set_add_nodup (q : nat) (l : list nat) :
  NoDup l -> NoDup (set_add q l).
Proof.
  unfold set_add. intros Hnd. destruct (existsb (Nat.eqb q) l) eqn:E;
    [exact Hnd |].
  apply NoDup_app; [exact Hnd | repeat constructor; intros [] |].
  intros x Hin [Heq | []]. subst x.
  assert (existsb (Nat.eqb q) l = true); [| congruence].
  apply existsb_exists. exists q. split; [exact Hin | apply Nat.eqb_refl].
Qed.

Lemma store_allocation_begun (cmd : Command) (w : World) :
  _clear (self w) = false ->
  (forall x, In x (_allocated_qubits (self w)) ->
             In x (_allocated_qubits (self (snd (_store cmd w)))))
  /\ (NoDup (_allocated_qubits (self w)) ->
      NoDup (_allocated_qubits (self (snd (_store cmd w)))))
  /\ (gate cmd = Ops.Allocate ->
      forall q r qs, qubits cmd = (q :: r) :: qs ->
        fst (_store cmd w) = Returns tt
        /\ In q (_allocated_qubits (self (snd (_store cmd w))))).
Proof.
  intros Hclear. destruct cmd as [g qs cs ts].
  destruct (Ops.Gate_eq_dec g Ops.Measure) as [-> | Hg].
  { rewrite store_Measure. unfold begin_circuit. rewrite Hclear.
    split; [| split]; [| | discriminate];
      destruct qs as [| [| q [| q' r]] [| r' qs]];
      try destruct (find_logical_id ts); simpl; rewrite ?Hclear; auto. }
  destruct w as [s mr rq d]. destruct s as [dev n re cl ids tab q0 al].
  simpl in Hclear. subst cl. simpl gate. simpl qubits.
  split; [| split].
  - store_cases g qs cs ts; try (now elim Hg); intros x Hx;
      try exact Hx; now apply in_set_add.
  - store_cases g qs cs ts; try (now elim Hg); intros Hnd;
      try exact Hnd; now apply set_add_nodup.
  - intros -> q r qs' ->. split; [reflexivity |]. apply in_set_add_same.
Qed.

(** X8: within a circuit the allocation set only grows and keeps its
    elements distinct: storing any command (Deallocate included) removes no
    qubit id from it, and storing an Allocate command on a register with a
    first qubit succeeds and leaves that qubit's id in the set. *)
Theorem allocation_set_only_grows (cmd : Command) (w : World) :
  (forall x, In x (_allocated_qubits (begin_circuit (self w))) ->
             In x (_allocated_qubits (self (snd (_store cmd w)))))
  /\ (NoDup (_allocated_qubits (begin_circuit (self w))) ->
      NoDup (_allocated_qubits (self (snd (_store cmd w)))))
  /\ (gate cmd = Ops.Allocate ->
      forall q r qs, qubits cmd = (q :: r) :: qs ->
        fst (_store cmd w) = Returns tt
        /\ In q (_allocated_qubits (self (snd (_store cmd w))))).
Proof.
  rewrite store_begin.
  apply (store_allocation_begun cmd (with_self (begin_circuit (self w)) w)
           (begin_circuit_clear (self w))).
Qed.

Lemma allocation_set_only_grows_witness :
  _allocated_qubits
    (self (snd (receive no_client
                  [allocate_cmd 4; allocate_cmd 2; allocate_cmd 4;
                   mkCommand Ops.Deallocate [[4]] [] []]
                  fresh_world))) = [4; 2]
  /\ In 7 (_allocated_qubits (self (snd (_store (allocate_cmd 7)
                                                fresh_world)))).
Proof.
  split; [reflexivity |].
  apply (proj2 (proj2 (allocation_set_only_grows (allocate_cmd 7)
                                                 fresh_world))
           eq_refl 7 [] [] eq_refl).
Defined.

(* ------------------------------------------------------------------ *)
(** ** Runs: what is kept and what a failure leaves *)

Lemma same_program_refl (s : Backend) : same_program s s.
Proof. repeat split. Qed.

Lemma same_program_trans (s1 s2 s3 : Backend) :
  same_program s1 s2 -> same_program s2 s3 -> same_program s1 s3.
Proof.
  intros (A1 & A2 & A3 & A4 & A5) (B1 & B2 & B3 & B4 & B5).
  repeat split; congruence.
Qed.

Lemma sample_same_program (P : Q) (counts : PyDict.dict nat) (p_sum : Q)
    (measured : string) (w : World) :
  same_program (self w) (self (snd (sample P counts p_sum measured w)))
  /\ _measured_ids (self (snd (sample P counts p_sum measured w)))
     = _measured_ids (self w)
  /\ _clear (self (snd (sample P counts p_sum measured w)))
     = _clear (self w)
  /\ draws (snd (sample P counts p_sum measured w)) = draws w
  /\ measurement_results (snd (sample P counts p_sum measured w))
     = measurement_results w.
Proof.
  revert p_sum measured w.
  induction counts as [| [state n] r IH]; intros p_sum measured w.
  - simpl. repeat split.
  - cbn [sample]. unfold bind, get_self, modify.
    destruct (_num_runs (self w) =? 0)%Z; [simpl; repeat split |].
    match goal with
    | |- context [sample P r ?p ?m ?w0] =>
        destruct (IH p m w0) as (H1 & H2 & H3 & H4 & H5)
    end.
    split; [| split; [exact H2 | split; [exact H3 |
                                          split; [exact H4 | exact H5]]]].
    exact H1.
Qed.

Lemma register_same_self (env : Env) (measured : string) (ids : list nat)
    (w : World) :
  self (snd (register env measured ids w)) = self w
  /\ draws (snd (register env measured ids w)) = draws w.
Proof.
  unfold register. revert w. induction ids as [| ID r IH]; intros w.
  - split; reflexivity.
  - rewrite for_each_cons. unfold bind, lift.
    destruct (_logical_to_physical env ID) as [location | e];
      [| split; reflexivity].
    destruct (String.get location measured) as [c |]; [| split; reflexivity].
    destruct (PyStr.int_of_char c) as [bit |]; [| split; reflexivity].
    unfold set_measurement_result.
    match goal with
    | |- context [for_each r ?b ?w0] => destruct (IH w0) as [H1 H2]
    end.
    split; [exact H1 | exact H2].
Qed.

Lemma call_client_eq (env : Env) (info : Info) (w : World) :
  match _retrieve_execution (self w) with
  | None => call_send env info
  | Some jobid => call_retrieve env (device (self w)) jobid
  end w
  = (match _retrieve_execution (self w) with
     | None => send env info
     | Some jobid => retrieve env (device (self w)) jobid
     end,
     mkWorld (self w) (measurement_results w)
             (requests w
              ++ [match _retrieve_execution (self w) with
                  | None => Send info
                  | Some jobid => Retrieve (device (self w)) jobid
                  end]) (draws w)).
Proof. now destruct (_retrieve_execution (self w)). Qed.

(** The [try] block when the client raises. *)
Lemma run_try_refused (env : Env) (w : World) (e : Exn) :
  client_answer env (self w) = Raises e ->
  run_try env (make_info (self w)) w
  = (Raises e,
     mkWorld (self w) (measurement_results w)
             (requests w ++ [client_request (self w)]) (draws w)).
Proof.
  intros Hanswer. unfold client_answer in Hanswer.
  unfold run_try. unfold bind at 1. unfold get_self at 1.
  unfold bind at 1. rewrite call_client_eq, Hanswer.
  unfold client_request. reflexivity.
Qed.

(** What the [try] block keeps, however it ends. *)
Lemma run_try_same_program (env : Env) (info : Info) (w w' : World)
    (o : Outcome unit) :
  run_try env info w = (o, w') ->
  same_program (self w) (self w')
  /\ (o = Returns tt ->
      _clear (self w') = true /\ _measured_ids (self w') = []
      /\ draws w' = S (draws w)).
Proof.
  intros H. unfold run_try in H. unfold bind at 1 in H.
  unfold get_self at 1 in H. unfold bind at 1 in H.
  rewrite call_client_eq in H.
  destruct (match _retrieve_execution (self w) with
            | None => send env info
            | Some jobid => retrieve env (device (self w)) jobid
            end) as [res | e];
    [| injection H as <- <-; split; [apply same_program_refl | discriminate]].
  unfold bind at 1 in H. unfold random_random in H. cbn iota beta in H.
  unfold bind at 1 in H.
  match type of H with
  | context [sample ?P ?c ?p ?m ?w0] =>
      destruct (sample_same_program P c p m w0) as (Hs & _ & _ & Hd & _);
      destruct (sample P c p m w0) as [[measured | e] w3]
  end; simpl in Hs, Hd;
    [| injection H as <- <-; split; [exact Hs | discriminate]].
  unfold bind at 1 in H. unfold get_self at 1 in H. cbn iota beta in H.
  unfold bind at 1 in H.
  match type of H with
  | context [register ?e ?m ?ids ?w0] =>
      destruct (register_same_self e m ids w0) as [Hr Hd2];
      destruct (register e m ids w0) as [[[] | e'] w4]
  end; simpl in Hr, Hd2; injection H as <- <-.
  - simpl. rewrite Hr, Hd2, Hd.
    split; [| intros _; repeat split].
    destruct Hs as (A1 & A2 & A3 & A4 & A5). repeat split; assumption.
  - rewrite Hr. split; [exact Hs | discriminate].
Qed.

(** X9: when the client raises, the run ends with that exception, a
    [TypeError] being replaced by the exception with the message
    "Failed to run the circuit. Aborting."; the request has been made, the
    measurement instructions stay appended to the program text, and nothing
    else has happened: no random value drawn, no result delivered, no
    reset. *)
Theorem run_client_failure (env : Env) (w : World) (e : Exn) :
  quil (self w) <> EmptyString ->
  snd (resolved env (_measured_ids (self w))) = None ->
  _allocated_qubits (self w) <> [] ->
  client_answer env (with_measurements env (self w)) = Raises e ->
  _run env w
  = (Raises (reraised e),
     mkWorld (with_measurements env (self w)) (measurement_results w)
             (requests w ++ [client_request (with_measurements env (self w))])
             (draws w)).
Proof.
  intros Hq Hres Halloc Hanswer.
  rewrite (run_eq env w Hq), Hres.
  destruct (_allocated_qubits (self w)); [now elim Halloc |].
  unfold except_TypeError.
  set (w1 := with_self (with_measurements env (self w)) w).
  change (make_info (with_measurements env (self w)))
    with (make_info (self w1)).
  rewrite (run_try_refused env w1 e Hanswer).
  destruct e; reflexivity.
Qed.

Lemma run_client_failure_witness :
  _run refusing_env loaded_world
  = (Raises (RuntimeError "offline"),
     mkWorld (with_measurements refusing_env (self loaded_world)) []
             [client_request
                (with_measurements refusing_env (self loaded_world))] 0)
  /\ fst (_run failing_env loaded_world)
     = Raises (Exception "Failed to run the circuit. Aborting.").
Proof.
  split.
  - apply (run_client_failure refusing_env loaded_world
             (RuntimeError "offline")).
    + discriminate.
    + reflexivity.
    + discriminate.
    + reflexivity.
  - rewrite (run_client_failure failing_env loaded_world TypeError).
    + reflexivity.
    + discriminate.
    + reflexivity.
    + discriminate.
    + reflexivity.
Defined.

Lemma resolved_unknown (env : Env) (mapping : nat -> option nat)
    (pre post : list nat) (id : nat) (locs : list nat) :
  mapper env = Some mapping ->
  Forall2 (fun i loc => mapping i = Some loc) pre locs ->
  mapping id = None ->
  resolved env (pre ++ id :: post) = (locs, Some (KeyError id)).
Proof.
  intros Hmapper Hpre Hid. induction Hpre as [| i loc pre locs Hi _ IH].
  - simpl. unfold current_mapping_lookup. now rewrite Hmapper, Hid.
  - simpl. unfold current_mapping_lookup at 1. rewrite Hmapper, Hi.
    now rewrite IH.
Qed.

(** X10: when a measured id is missing from the mapper's current mapping,
    the run raises [KeyError] for the first such id; the measurement
    instructions of the ids before it have been appended to the program
    text, and no request has been made. *)
Theorem run_unknown_measured_id (env : Env) (w : World)
    (mapping : nat -> option nat) (pre post : list nat) (id : nat)
    (locs : list nat) :
  quil (self w) <> EmptyString ->
  mapper env = Some mapping ->
  _measured_ids (self w) = pre ++ id :: post ->
  Forall2 (fun i loc => mapping i = Some loc) pre locs ->
  mapping id = None ->
  _run env w
  = (Raises (KeyError id),
     with_self (set_quil (quil (self w)
                          ++ PyStr.concat (map fmt_MEASURE locs))
                         (self w)) w).
Proof.
  intros Hq Hmapper Hids Hpre Hid.
  rewrite (run_eq env w Hq). unfold with_measurements.
  rewrite Hids, (resolved_unknown env mapping pre post id locs
                   Hmapper Hpre Hid).
  reflexivity.
Qed.

Lemma run_unknown_measured_id_witness :
  fst (_run env_only_qubit0 half_mapped_world) = Raises (KeyError 1)
  /\ PyStr.lines
       (quil (self (snd (_run env_only_qubit0 half_mapped_world))))
     = [EmptyString; "X 0"; "MEASURE 0 [0]"]
  /\ requests (snd (_run env_only_qubit0 half_mapped_world)) = [].
Proof.
  rewrite (run_unknown_measured_id
             env_only_qubit0 half_mapped_world only_qubit0 [0] [] 1 [0]).
  - repeat split.
  - discriminate.
  - reflexivity.
  - reflexivity.
  - repeat constructor.
  - reflexivity.
Defined.

Lemma store_other_allocation_begun (cmd : Command) (w : World) :
  _clear (self w) = false ->
  gate cmd <> Ops.Allocate ->
  _allocated_qubits (self (snd (_store cmd w)))
  = _allocated_qubits (self w).
Proof.
  intros Hclear Hne. destruct cmd as [g qs cs ts]. simpl in Hne.
  destruct (Ops.Gate_eq_dec g Ops.Measure) as [-> | Hg].
  { rewrite store_Measure. unfold begin_circuit. rewrite Hclear.
    destruct qs as [| [| q [| q' r]] [| r' qs]];
      try destruct (find_logical_id ts); simpl; rewrite ?Hclear;
      reflexivity. }
  destruct w as [s mr rq d]. destruct s as [dev n re cl ids tab q0 al].
  simpl in Hclear. subst cl.
  store_cases g qs cs ts; try (now elim Hg); try (now elim Hne);
    reflexivity.
Qed.

Lemma store_other_allocation (cmd : Command) (w : World) :
  gate cmd <> Ops.Allocate ->
  _allocated_qubits (self w) = [] ->
  _allocated_qubits (self (snd (_store cmd w))) = [].
Proof.
  intros Hne Hempty. rewrite store_begin.
  rewrite (store_other_allocation_begun
             cmd (with_self (begin_circuit (self w)) w)
             (begin_circuit_clear (self w)) Hne).
  simpl. unfold begin_circuit. now destruct (_clear (self w)).
Qed.

(** X11: a circuit that writes instructions without ever allocating a qubit
    cannot be flushed: once its measured ids are resolved and their
    instructions appended, the flush raises [ValueError] (the maximum of an
    empty allocation set), before any request is made. *)
Theorem circuit_without_allocation_cannot_flush (env : Env)
    (cmds : list Command) (w w1 : World) :
  _allocated_qubits (self w) = [] ->
  Forall (fun cmd => gate cmd <> Ops.Allocate
                     /\ gate cmd <> Ops.FlushGate) cmds ->
  receive env cmds w = (Returns tt, w1) ->
  quil (self w1) <> EmptyString ->
  snd (resolved env (_measured_ids (self w1))) = None ->
  receive env [flush_cmd] w1
  = (Raises ValueError, with_self (with_measurements env (self w1)) w1).
Proof.
  intros Hempty Hcmds Hrun Hq Hres.
  assert (Halloc : _allocated_qubits (self w1) = []).
  { revert w Hempty Hrun. unfold receive.
    induction Hcmds as [| cmd cmds [Hna Hnf] _ IH]; intros w Hempty Hrun.
    - injection Hrun as <-. exact Hempty.
    - rewrite for_each_cons in Hrun. cbv beta in Hrun.
      assert (Hf : Ops.eqb (gate cmd) Ops.FlushGate = false).
      { destruct (Ops.eqb (gate cmd) Ops.FlushGate) eqn:E; [| reflexivity].
        apply eqb_true_iff in E. now elim Hnf. }
      rewrite Hf in Hrun. cbn [negb] in Hrun.
      pose proof (store_other_allocation cmd w Hna Hempty) as Hstep.
      destruct (_store cmd w) as [[[] | e] w2]; [| discriminate Hrun].
      exact (IH w2 Hstep Hrun). }
  unfold receive. rewrite for_each_cons. cbv beta.
  replace (Ops.eqb (gate flush_cmd) Ops.FlushGate) with true by reflexivity.
  cbn [negb]. unfold bind at 1. rewrite (run_eq env w1 Hq), Hres, Halloc.
  reflexivity.
Qed.

Lemma circuit_without_allocation_cannot_flush_witness :
  fst (receive example_env [x_cmd 0; flush_cmd] fresh_world)
  = Raises ValueError
  /\ receive example_env [flush_cmd]
       (snd (receive example_env unallocated_circuit fresh_world))
     = (Raises ValueError,
        with_self
          (with_measurements example_env
             (self (snd (receive example_env unallocated_circuit
                                 fresh_world))))
          (snd (receive example_env unallocated_circuit fresh_world))).
Proof.
  split; [reflexivity |].
  apply (circuit_without_allocation_cannot_flush
           example_env unallocated_circuit fresh_world).
  - reflexivity.
  - repeat (constructor; [split; discriminate |]). constructor.
  - reflexivity.
  - discriminate.
  - reflexivity.
Defined.

(* ------------------------------------------------------------------ *)
(** ** Flushing twice *)

Lemma append_nonempty (a b : string) :
  a <> EmptyString -> (a ++ b)%string <> EmptyString.
Proof. destruct a; [congruence | discriminate]. Qed.

Lemma client_request_same (s s' : Backend) :
  same_program s s' -> client_request s' = client_request s.
Proof.
  intros (A1 & A2 & A3 & A4 & A5). unfold client_request, make_info.
  now rewrite A1, A2, A3, A4.
Qed.

Lemma with_measurements_none (env : Env) (s : Backend) :
  _measured_ids s = [] -> with_measurements env s = s.
Proof.
  intros Hids. unfold with_measurements. rewrite Hids. simpl.
  now rewrite str_app_nil_r, set_quil_same.
Qed.

Lemma flush_cmd_eq (env : Env) (w : World) :
  receive env [flush_cmd] w
  = match _run env w with
    | (Returns _, w') => (Returns tt, snd (_reset w'))
    | (Raises e, w') => (Raises e, w')
    end.
Proof.
  unfold receive. rewrite for_each_cons. cbv beta.
  replace (Ops.eqb (gate flush_cmd) Ops.FlushGate) with true by reflexivity.
  cbn [negb]. unfold bind. destruct (_run env w) as [[[] | e] w']; reflexivity.
Qed.

(** A flush of a non-empty program whose measured ids resolve and whose
    allocation set is not empty makes exactly one request. *)
Lemma flush_requests (env : Env) (w : World) :
  quil (self w) <> EmptyString ->
  snd (resolved env (_measured_ids (self w))) = None ->
  _allocated_qubits (self w) <> [] ->
  requests (snd (receive env [flush_cmd] w))
  = requests w ++ [client_request (with_measurements env (self w))].
Proof.
  intros Hq Hres Halloc. rewrite flush_cmd_eq, (run_eq env w Hq), Hres.
  destruct (_allocated_qubits (self w)); [now elim Halloc |].
  unfold except_TypeError.
  destruct (run_try env (make_info (with_measurements env (self w)))
                    (with_self (with_measurements env (self w)) w))
    as [o w2] eqn:Htry.
  destruct (run_try_frame _ _ _ _ _ Htry) as [Hr _].
  assert (Hreq : requests w2
                 = requests w
                   ++ [client_request (with_measurements env (self w))])
    by (rewrite Hr; reflexivity).
  destruct o as [[] | e]; [exact Hreq |].
  destruct e; exact Hreq.
Qed.

(** What a flush of a non-empty program that returns has done. *)
Lemma flush_returns_inv (env : Env) (w w1 : World) :
  quil (self w) <> EmptyString ->
  receive env [flush_cmd] w = (Returns tt, w1) ->
  snd (resolved env (_measured_ids (self w))) = None
  /\ _allocated_qubits (self w) <> []
  /\ same_program (with_measurements env (self w)) (self w1)
  /\ _clear (self w1) = true /\ _measured_ids (self w1) = []
  /\ draws w1 = S (draws w).
Proof.
  intros Hq. rewrite flush_cmd_eq, (run_eq env w Hq).
  destruct (snd (resolved env (_measured_ids (self w)))) as [e |];
    [discriminate |].
  destruct (_allocated_qubits (self w)) as [| a al] eqn:Halloc;
    [discriminate |].
  unfold except_TypeError.
  destruct (run_try env (make_info (with_measurements env (self w)))
                    (with_self (with_measurements env (self w)) w))
    as [o w2] eqn:Htry.
  destruct (run_try_same_program _ _ _ _ _ Htry) as [Hsame Hret].
  destruct o as [[] | e]; [| destruct e; discriminate].
  intros H. injection H as <-.
  destruct (Hret eq_refl) as (_ & _ & Hd).
  split; [reflexivity |]. split; [discriminate |].
  split; [| split; [reflexivity | split; [reflexivity | exact Hd]]].
  destruct Hsame as (A1 & A2 & A3 & A4 & A5). repeat split; assumption.
Qed.

(** X12: the program text is not emptied by a flush: a second flush that
    follows a successful one without any command in between submits the
    same request again (with whatever mapper and client it finds), the
    measurement instructions being appended once only. *)
Theorem second_flush_resubmits (env env' : Env) (w w1 : World) :
  quil (self w) <> EmptyString ->
  receive env [flush_cmd] w = (Returns tt, w1) ->
  requests w1
  = requests w ++ [client_request (with_measurements env (self w))]
  /\ requests (snd (receive env' [flush_cmd] w1))
     = requests w1 ++ [client_request (with_measurements env (self w))].
Proof.
  intros Hq Hflush.
  destruct (flush_returns_inv env w w1 Hq Hflush)
    as (Hres & Halloc & Hsame & Hclear & Hids & _).
  split.
  - rewrite <- (flush_requests env w Hq Hres Halloc), Hflush. reflexivity.
  - rewrite flush_requests.
    + rewrite (with_measurements_none env' _ Hids).
      now rewrite (client_request_same _ _ Hsame).
    + destruct Hsame as (_ & _ & _ & A4 & _). rewrite A4.
      unfold with_measurements. simpl. now apply append_nonempty.
    + now rewrite Hids.
    + destruct Hsame as (_ & _ & _ & _ & A5). rewrite A5. exact Halloc.
Qed.

Lemma second_flush_resubmits_witness :
  requests (snd (receive two_shots_env [flush_cmd; flush_cmd] loaded_world))
  = [client_request (with_measurements two_shots_env (self loaded_world));
     client_request (with_measurements two_shots_env (self loaded_world))].
Proof.
  destruct (second_flush_resubmits
              two_shots_env two_shots_env loaded_world
              (snd (receive two_shots_env [flush_cmd] loaded_world)))
    as [H1 H2].
  - discriminate.
  - reflexivity.
  - reflexivity.
Defined.

(* ------------------------------------------------------------------ *)
(** ** The histogram and the table of a run *)

Lemma count_results_positive (res : Res) (counts : PyDict.dict nat) :
  Forall (fun n => 1 <= n) (PyDict.values counts) ->
  Forall (fun n => 1 <= n) (PyDict.values (count_results res counts)).
Proof.
  revert counts. induction res as [| result r IH]; simpl; intros counts H.
  - exact H.
  - apply IH. clear IH.
    assert (Hset : forall k v (d : PyDict.dict nat),
               1 <= v -> Forall (fun n => 1 <= n) (PyDict.values d) ->
               Forall (fun n => 1 <= n) (PyDict.values (PyDict.set k v d))).
    { intros k v d Hv. unfold PyDict.values.
      induction d as [| [k' v'] d IHd]; simpl; intros Hd.
      - now constructor.
      - inversion Hd; subst. destruct (String.eqb k k'); simpl;
          constructor; auto. }
    destruct (PyDict.get _ counts); apply Hset; auto; lia.
Qed.

(** X13: the histogram built from the shots has one entry per distinct
    printed shot, every count is at least 1, and the counts add up to the
    number of shots. *)
Theorem histogram_counts_the_shots (res : Res) :
  NoDup (PyDict.keys (count_results res []))
  /\ Forall (fun n => 1 <= n) (PyDict.values (count_results res []))
  /\ count_total (count_results res []) = List.length res
  /\ forall shot,
       In shot res ->
       In (PyStr.concat (map PyStr.str_nat shot))
          (PyDict.keys (count_results res [])).
Proof.
  split; [apply count_results_nodup; constructor |].
  split; [apply count_results_positive; constructor |].
  split; [now rewrite count_results_total |].
  assert (Hkeep : forall r (counts : PyDict.dict nat) k,
             In k (PyDict.keys counts) ->
             In k (PyDict.keys (count_results r counts))).
  { induction r as [| result r IH]; simpl; intros counts k Hk; [exact Hk |].
    apply IH. destruct (PyDict.get _ counts);
      rewrite dict_keys_set;
      destruct (existsb _ (PyDict.keys counts)); auto;
      apply in_or_app; now left. }
  assert (Hall : forall r (counts : PyDict.dict nat) shot,
             In shot r ->
             In (PyStr.concat (map PyStr.str_nat shot))
                (PyDict.keys (count_results r counts))).
  { induction r as [| result r IH]; simpl; intros counts shot Hin;
      [contradiction |].
    destruct Hin as [-> | Hin]; [| now apply IH].
    apply Hkeep.
    destruct (PyDict.get _ counts); rewrite dict_keys_set;
      match goal with
      | |- context [existsb ?f ?l] => destruct (existsb f l) eqn:E
      end;
      try (apply existsb_eqb_in in E; exact E);
      apply in_or_app; right; now left. }
  intros shot Hin. now apply Hall.
Qed.



(* ------------------------------------------------------------------ *)
(** ** A draw no state reaches *)







(* ------------------------------------------------------------------ *)
(** ** Storing: what suffices *)

Lemma available_commands_are_stored_begun (cmd : Command) (w : World)
    (q : nat) (r : list nat) (qs : list (list nat)) :
  _clear (self w) = false ->
  is_available cmd = true ->
  gate cmd <> Ops.Measure ->
  qubits cmd = (q :: r) :: qs ->
  get_control_count cmd <= 1
  \/ (gate cmd = Ops.NOT /\ get_control_count cmd <= 2) ->
  fst (_store cmd w) = Returns tt.
Proof.
  intros Hclear Hav Hg Hqs Hcount.
  destruct cmd as [g qs0 cs ts]. simpl in Hg, Hqs. subst qs0.
  unfold get_control_count in Hcount. simpl in Hcount.
  destruct w as [s mr rq d]. destruct s as [dev n re cl ids tab q0 al].
  simpl in Hclear. subst cl.
  destruct cs as [| c1 [| c2 [| c3 cs]]]; simpl in Hcount;
    destruct g; try discriminate Hav; try (now elim Hg);
    try reflexivity;
    destruct Hcount as [Hc | [Hc1 Hc2]];
    try lia; try discriminate Hc1.
Qed.

(** X16: a command the availability predicate admits, other than Measure,
    is stored without error as soon as its first register has a qubit and
    it has at most one control, or is a NOT with at most two. *)
Theorem available_commands_are_stored (cmd : Command) (w : World)
    (q : nat) (r : list nat) (qs : list (list nat)) :
  is_available cmd = true ->
  gate cmd <> Ops.Measure ->
  qubits cmd = (q :: r) :: qs ->
  get_control_count cmd <= 1
  \/ (gate cmd = Ops.NOT /\ get_control_count cmd <= 2) ->
  fst (_store cmd w) = Returns tt.
Proof.
  intros Hav Hg Hqs Hcount. rewrite store_begin.
  apply (available_commands_are_stored_begun
           cmd (with_self (begin_circuit (self w)) w) q r qs
           (begin_circuit_clear (self w)) Hav Hg Hqs Hcount).
Qed.

Lemma available_commands_are_stored_witness :
  fst (_store (mkCommand Ops.NOT [[2]] [0; 1] []) fresh_world) = Returns tt.
Proof.
  apply (available_commands_are_stored
           (mkCommand Ops.NOT [[2]] [0; 1] []) fresh_world 2 [] []).
  - reflexivity.
  - discriminate.
  - reflexivity.
  - right. split; [reflexivity | unfold get_control_count; simpl; lia].
Defined.

(* ------------------------------------------------------------------ *)
(** ** Receiving *)



(* ------------------------------------------------------------------ *)
(** ** Reading the table *)

Lemma mapped_state_length (env : Env) (state : string) (qureg : list nat)
    (cs : list ascii) :
  mapped_state env state qureg = Returns cs ->
  List.length cs = List.length qureg.
Proof.
  revert cs. induction qureg as [| q r IH]; simpl; intros cs H.
  - now injection H as <-.
  - destruct (_logical_to_physical env q) as [loc | e]; [| discriminate H].
    destruct (String.get loc state) as [c |]; [| discriminate H].
    destruct (mapped_state env state r) as [cs' | e]; [| discriminate H].
    injection H as <-. simpl. now rewrite (IH cs' eq_refl).
Qed.

Lemma join_length (cs : list ascii) :
  String.length (PyStr.join cs) = List.length cs.
Proof.
  unfold PyStr.join. induction cs as [| c cs IH]; simpl;
    [reflexivity | now rewrite IH].
Qed.

Lemma dict_set_length {V} (k : string) (v : V) (d : PyDict.dict V) :
  List.length (PyDict.set k v d) <= S (List.length d).
Proof.
  induction d as [| [k' v'] d IH]; simpl; [lia |].
  destruct (String.eqb k k'); simpl; lia.
Qed.

Lemma dict_set_values {V} (k : string) (v x : V) (d : PyDict.dict V) :
  In x (PyDict.values (PyDict.set k v d)) ->
  x = v \/ In x (PyDict.values d).
Proof.
  unfold PyDict.values.
  induction d as [| [k' v'] d IH]; simpl.
  - intros [<- | []]. now left.
  - destruct (String.eqb k k'); simpl.
    + intros [<- | H]; auto.
    + intros [<- | H]; auto. destruct (IH H); auto.
Qed.

Lemma project_table_shape (env : Env) (qureg : list nat)
    (table acc d : PyDict.dict Q) :
  project_table env qureg table acc = Returns d ->
  (NoDup (PyDict.keys acc) -> NoDup (PyDict.keys d))
  /\ List.length d <= List.length acc + List.length table
  /\ (forall k, In k (PyDict.keys d) ->
                 In k (PyDict.keys acc)
                 \/ String.length k = List.length qureg)
  /\ (forall v, In v (PyDict.values d) ->
                 In v (PyDict.values acc) \/ In v (PyDict.values table)).
Proof.
  revert acc. induction table as [| [state p] r IH]; simpl; intros acc H.
  - injection H as <-. repeat split; auto. lia.
  - destruct (mapped_state env state qureg) as [cs |] eqn:Hcs;
      [| discriminate H].
    destruct (IH _ H) as (H1 & H2 & H3 & H4).
    pose proof (dict_set_length (PyStr.join cs) p acc) as Hlen.
    split; [| split; [| split]].
    + intros Hnd. apply H1. now apply dict_keys_set_nodup.
    + lia.
    + intros k Hk. destruct (H3 k Hk) as [Hin | Hl]; [| now right].
      rewrite dict_keys_set in Hin.
      destruct (existsb _ (PyDict.keys acc)); [now left |].
      apply in_app_or in Hin. destruct Hin as [Hin | [<- | []]];
        [now left | right].
      now rewrite join_length, (mapped_state_length _ _ _ _ Hcs).
    + intros v Hv. destruct (H4 v Hv) as [Hin | Hin]; [| right; now right].
      apply dict_set_values in Hin. destruct Hin as [-> | Hin];
        [right; now left | now left].
Qed.

(** X18: the dictionary [get_probabilities] returns has distinct keys, each
    as long as the register; it has at most as many entries as the table,
    and every probability in it is one of the table (none is a sum). *)
Theorem get_probabilities_shape (env : Env) (s : Backend)
    (qureg : list nat) (d : PyDict.dict Q) :
  get_probabilities env s qureg = Returns d ->
  NoDup (PyDict.keys d)
  /\ List.length d <= List.length (_probabilities s)
  /\ (forall k, In k (PyDict.keys d) ->
                 String.length k = List.length qureg)
  /\ (forall v, In v (PyDict.values d) ->
                 In v (PyDict.values (_probabilities s))).
Proof.
  unfold get_probabilities.
  destruct (List.length (_probabilities s) =? 0); [discriminate |].
  intros H. destruct (project_table_shape _ _ _ _ _ H) as (H1 & H2 & H3 & H4).
  split; [apply H1; constructor |]. split; [exact H2 |].
  split.
  - intros k Hk. destruct (H3 k Hk) as [[] | Hl]. exact Hl.
  - intros v Hv. destruct (H4 v Hv) as [[] | Hin]. exact Hin.
Qed.

Lemma get_probabilities_shape_witness :
  NoDup (PyDict.keys [("1", 27 # 1024); ("0", 601 # 1024)]%Q)
  /\ List.length [("1", 27 # 1024); ("0", 601 # 1024)]%Q <= 3.
Proof.
  destruct (get_probabilities_shape
              env_identity3 example_backend [0]
              [("1", 27 # 1024); ("0", 601 # 1024)]%Q eq_refl)
    as (H1 & H2 & _).
  split; [exact H1 | exact H2].
Defined.

Lemma string_get_some (loc : nat) (s : string) :
  loc < String.length s -> exists c, String.get loc s = Some c.
Proof.
  revert loc. induction s as [| c s IH]; simpl; intros loc H; [lia |].
  destruct loc as [| loc]; [now exists c |]. apply IH. lia.
Qed.

Lemma string_get_none (loc : nat) (s : string) :
  String.length s <= loc -> String.get loc s = None.
Proof.
  revert loc. induction s as [| c s IH]; simpl; intros loc H;
    [now destruct loc |].
  destruct loc as [| loc]; [lia |]. apply IH. lia.
Qed.

Lemma mapped_state_first_failure (env : Env) (mapping : nat -> option nat)
    (state : string) (pre post : list nat) (id : nat) (e : Exn) :
  mapper env = Some mapping ->
  (forall i, In i pre ->
             exists loc, mapping i = Some loc /\ loc < String.length state) ->
  (mapping id = None /\ e = RuntimeError (unknown_qubit_msg id)
   \/ (exists loc, mapping id = Some loc /\ String.length state <= loc)
       /\ e = IndexError) ->
  mapped_state env state (pre ++ id :: post) = Raises e.
Proof.
  intros Hmapper Hpre Hid. induction pre as [| i pre IH]; simpl.
  - unfold _logical_to_physical. rewrite Hmapper.
    destruct Hid as [[Hnone ->] | [(loc & Hloc & Hlen) ->]].
    + now rewrite Hnone.
    + now rewrite Hloc, (string_get_none _ _ Hlen).
  - unfold _logical_to_physical at 1. rewrite Hmapper.
    destruct (Hpre i (or_introl eq_refl)) as (loc & Hloc & Hlen).
    rewrite Hloc. destruct (string_get_some _ _ Hlen) as [c ->].
    rewrite IH; [reflexivity |].
    intros j Hj. apply Hpre. now right.
Qed.

(** X19: with a table at hand, the first qubit of the register that cannot
    be read in the first stored state decides the error: a qubit the
    mapping does not hold raises the resolver's [RuntimeError] naming it, a
    qubit placed beyond the end of the state raises [IndexError]. *)
Theorem get_probabilities_first_failure (env : Env) (s : Backend)
    (mapping : nat -> option nat) (state : string) (p : Q)
    (rest : PyDict.dict Q) (pre post : list nat) (id : nat) :
  _probabilities s = (state, p) :: rest ->
  mapper env = Some mapping ->
  (forall i, In i pre ->
             exists loc, mapping i = Some loc /\ loc < String.length state) ->
  (mapping id = None ->
   get_probabilities env s (pre ++ id :: post)
   = Raises (RuntimeError (unknown_qubit_msg id)))
  /\ (forall loc, mapping id = Some loc -> String.length state <= loc ->
      get_probabilities env s (pre ++ id :: post) = Raises IndexError).
Proof.
  intros Htable Hmapper Hpre. unfold get_probabilities. rewrite Htable.
  cbn [List.length Nat.eqb project_table]. split.
  - intros Hnone.
    rewrite (mapped_state_first_failure
               env mapping state pre post id
               (RuntimeError (unknown_qubit_msg id)) Hmapper Hpre);
      [reflexivity | left; now split].
  - intros loc Hloc Hlen.
    rewrite (mapped_state_first_failure
               env mapping state pre post id IndexError Hmapper Hpre);
      [reflexivity | right; split; [now exists loc | reflexivity]].
Qed.

Lemma get_probabilities_first_failure_witness :
  get_probabilities env_identity3 example_backend [1; 7; 0]
  = Raises (RuntimeError (unknown_qubit_msg 7)).
Proof.
  destruct (get_probabilities_first_failure
              env_identity3 example_backend identity3
              "11100" (99 # 256)%Q
              [("10100", 27 # 1024); ("00000", 601 # 1024)]%Q
              [1] [0] 7) as [Hunknown _].
  - reflexivity.
  - reflexivity.
  - intros i [<- | []]. exists 1. split; [reflexivity | simpl; lia].
  - apply Hunknown. reflexivity.
Defined.

Lemma string_get_nth (loc : nat) (s : string) :
  String.get loc s = nth_error (list_ascii_of_string s) loc.
Proof.
  revert loc. induction s as [| c s IH]; intros loc; simpl.
  - now destruct loc.
  - destruct loc as [| loc]; [reflexivity | apply IH].
Qed.

Lemma list_ascii_length (s : string) :
  List.length (list_ascii_of_string s) = String.length s.
Proof. induction s as [| c s IH]; simpl; [reflexivity | now rewrite IH]. Qed.

Lemma mapped_state_range (env : Env) (mapping : nat -> option nat)
    (state : string) (m k : nat) :
  mapper env = Some mapping ->
  (forall i, i < k + m -> mapping i = Some i) ->
  k + m <= String.length state ->
  mapped_state env state (seq k m)
  = Returns (firstn m (skipn k (list_ascii_of_string state))).
Proof.
  intros Hmapper Hid. revert k Hid.
  induction m as [| m IH]; intros k Hid Hlen; simpl; [reflexivity |].
  unfold _logical_to_physical at 1. rewrite Hmapper, (Hid k) by lia.
  rewrite string_get_nth.
  assert (Hk : k < List.length (list_ascii_of_string state))
    by (rewrite list_ascii_length; lia).
  destruct (nth_error (list_ascii_of_string state) k) as [c |] eqn:Hc;
    [| apply nth_error_None in Hc; lia].
  rewrite IH by (try (intros i Hi; apply Hid); lia).
  f_equal.
  clear - Hc. revert k Hc.
  induction (list_ascii_of_string state) as [| x l IHl]; intros k Hc.
  - now destruct k.
  - destruct k as [| k]; simpl in *.
    + now injection Hc as ->.
    + now apply IHl.
Qed.

Lemma project_table_identity (env : Env) (qureg : list nat)
    (table acc : PyDict.dict Q) :
  (forall state, In state (PyDict.keys table) ->
                 projection env qureg state = Returns state) ->
  NoDup (PyDict.keys (acc ++ table)) ->
  project_table env qureg table acc = Returns (acc ++ table).
Proof.
  revert acc. induction table as [| [state p] r IH]; simpl;
    intros acc Hproj Hnd.
  - now rewrite List.app_nil_r.
  - pose proof (Hproj state (or_introl eq_refl)) as Hs.
    unfold projection in Hs.
    destruct (mapped_state env state qureg) as [cs | e]; [| discriminate Hs].
    injection Hs as ->.
    assert (Hnew : ~ In state (PyDict.keys acc)).
    { rewrite dict_keys_app in Hnd. simpl in Hnd.
      apply NoDup_remove_2 in Hnd. intros Hin. apply Hnd.
      apply in_or_app. now left. }
    rewrite (dict_set_new _ _ _ Hnew).
    rewrite IH.
    + now rewrite <- List.app_assoc.
    + intros s' Hs'. apply Hproj. now right.
    + now rewrite <- List.app_assoc.
Qed.

(** X20: read with the register of the qubits 0 to n-1, each placed at its
    own position, a table whose states all have n characters comes back as
    it is stored, entry by entry and in the same order. *)
Theorem get_probabilities_identity_register (env : Env) (s : Backend)
    (mapping : nat -> option nat) (n : nat) :
  mapper env = Some mapping ->
  (forall i, i < n -> mapping i = Some i) ->
  _probabilities s <> [] ->
  NoDup (PyDict.keys (_probabilities s)) ->
  (forall state, In state (PyDict.keys (_probabilities s)) ->
                 String.length state = n) ->
  get_probabilities env s (seq 0 n) = Returns (_probabilities s).
Proof.
  intros Hmapper Hid Hne Hnd Hlen. unfold get_probabilities.
  destruct (_probabilities s) as [| item table] eqn:Htable;
    [now elim Hne |].
  cbn [List.length Nat.eqb]. rewrite <- Htable in *.
  apply (project_table_identity env (seq 0 n) (_probabilities s) []);
    [| exact Hnd].
  intros state Hin. unfold projection.
  rewrite (mapped_state_range env mapping state n 0 Hmapper Hid)
    by (rewrite (Hlen state Hin); lia).
  simpl skipn. rewrite firstn_all2
    by (rewrite list_ascii_length, (Hlen state Hin); lia).
  unfold PyStr.join. now rewrite string_of_list_ascii_of_string.
Qed.

Lemma get_probabilities_identity_register_witness :
  get_probabilities env_identity3
    (set_probabilities [("110", 1 # 4); ("001", 3 # 4)]%Q fresh_backend)
    [0; 1; 2]
  = Returns [("110", 1 # 4); ("001", 3 # 4)]%Q.
Proof.
  apply (get_probabilities_identity_register
           env_identity3
           (set_probabilities [("110", 1 # 4); ("001", 3 # 4)]%Q
                              fresh_backend)
           identity3 3).
  - reflexivity.
  - intros i Hi. unfold identity3.
    destruct (Nat.ltb_spec i 3); [reflexivity | lia].
  - discriminate.
  - repeat constructor; simpl; intuition discriminate.
  - intros state [<- | [<- | []]]; reflexivity.
Defined.
